(** * Simulating Noise in Terra, Aqua, and Qiskit Chemistry with Aer

    A verification development for the notebook
    [one_off_talks/Simulating Noise in Terra, Aqua, and Qiskit Chemistry with Aer.ipynb].

    The notebook is a straight-line Python script: every code cell is a
    sequence of statements whose only effects are operations answered by
    code outside the notebook (the shell, the import system, the Qiskit,
    Aqua and chemistry libraries, the display front-end).  The embedding
    keeps that shape: the script is a tree of external operations, each
    node binding the value the outside world replied with, exactly where
    the Python statement binds its variable.  Running the script against an
    arbitrary responder yields the ordered log of operations performed and
    the outcome (normal completion or an unhandled exception). *)

From Stdlib Require Import ZArith List String Ascii Bool Lia.
Import ListNotations.
Local Open Scope string_scope.
Local Open Scope list_scope.
Local Open Scope Z_scope.

(** ** Python values as the notebook sees them *)

Set Warnings "-register-all".

Inductive pyval : Type :=
| VNone
| VInt (n : Z)
| VStr (s : string)
| VModule (module : string)          (* bound by [import module] *)
| VLib (module name : string)        (* bound by [from module import name] *)
| VFloat (m e : Z)                   (* the float m * 2^e *)
| VObj (id : N)                      (* a library object, known only by identity *)
| VDict (items : list (string * pyval)). (* a dictionary with string keys *)

(** An exception object: its class and its message. *)
Record exn : Type := Exn { exn_class : string; exn_message : string }.

Inductive binop : Type := Add | Mult.

(** ** Operations the notebook asks of the outside world *)

Inductive op : Type :=
| Shell (cmd : string)                                    (* [!cmd] *)
| Import (module : string)                                (* [import module] *)
| ImportFrom (module : string) (names : list string)      (* [from module import names] *)
| Call (func : pyval) (args : list pyval) (keywords : list (string * pyval))
| CallMethod (self : pyval) (method : string)
             (args : list pyval) (keywords : list (string * pyval))
| GetAttr (value : pyval) (attr : string)                 (* [value.attr] *)
| GetItem (value : pyval) (index : pyval)                 (* [value[index]] *)
| BinOp (o : binop) (left right : pyval)                  (* operator on library objects *)
| Print (args : list pyval)                               (* [print(args)] *)
| Display (value : pyval).                                (* value of a cell's last expression *)

Inductive reply : Type :=
| Reply (v : pyval)
| Throws (e : exn).

Definition event : Type := op * reply.
Definition trace : Type := list event.

(** ** Scripts

    [Do o k] performs [o] and continues with [k] on the value replied.
    [Raise] and [TryExcept] are Python's [raise] and [try]/[except]; the
    notebook uses neither, which is what the error-handling results
    establish. *)

Inductive script : Type :=
| Ret (v : pyval)
| Do (o : op) (k : pyval -> script)
| Raise (e : exn)
| TryExcept (body : script) (handler : exn -> script) (k : pyval -> script).

Declare Scope script_scope.
Delimit Scope script_scope with script.
Bind Scope script_scope with script.
Notation "x <- o ;; k" := (Do o (fun x => k%script))
  (at level 61, o at next level, right associativity) : script_scope.
Notation "o ;; k" := (Do o (fun _ => k%script))
  (at level 61, right associativity) : script_scope.

(** Python's [+] and [*]: on two integers the interpreter computes the
    result itself; on anything else the operator is dispatched to the
    operands' own methods, that is, to library code. *)

Definition py_add (l r : pyval) (k : pyval -> script) : script :=
  match l, r with
  | VInt a, VInt b => k (VInt (a + b))
  | _, _ => Do (BinOp Add l r) k
  end.

Definition py_mult (l r : pyval) (k : pyval -> script) : script :=
  match l, r with
  | VInt a, VInt b => k (VInt (a * b))
  | _, _ => Do (BinOp Mult l r) k
  end.

Notation "x <-- e ;; k" := (e (fun x => k%script))
  (at level 61, e at next level, right associativity) : script_scope.

(** ** Running a script

    The outside world is a state [World] and a responder that answers each
    operation with a value or an exception.  A run returns the outcome, the
    log of operations performed (in order, each with its answer) and the
    final world. *)

Inductive outcome : Type :=
| Returned (v : pyval)
| Raised (e : exn).

Section Run.

Context {World : Type}.
Variable respond : op -> World -> reply * World.

Fixpoint run (s : script) (w : World) : outcome * trace * World :=
  match s with
  | Ret v => (Returned v, [], w)
  | Raise e => (Raised e, [], w)
  | Do o k =>
      match respond o w with
      | (Reply v, w1) =>
          let '(out, tr, w2) := run (k v) w1 in (out, (o, Reply v) :: tr, w2)
      | (Throws e, w1) => (Raised e, [(o, Throws e)], w1)
      end
  | TryExcept body handler k =>
      match run body w with
      | (Returned v, tr, w1) =>
          let '(out, tr', w2) := run (k v) w1 in (out, tr ++ tr', w2)
      | (Raised e, tr, w1) =>
          match run (handler e) w1 with
          | (Returned v, trh, w2) =>
              let '(out, tr', w3) := run (k v) w2 in (out, tr ++ trh ++ tr', w3)
          | (Raised e', trh, w2) => (Raised e', tr ++ trh, w2)
          end
      end
  end.

End Run.

(** ** Names the notebook imports *)

Definition Aer : pyval := VLib "qiskit" "Aer".
Definition IBMQ : pyval := VLib "qiskit" "IBMQ".
Definition execute : pyval := VLib "qiskit" "execute".
Definition noise : pyval := VLib "qiskit.providers.aer" "noise".
Definition QuantumCircuit : pyval := VLib "qiskit" "QuantumCircuit".
Definition QuantumRegister : pyval := VLib "qiskit" "QuantumRegister".
Definition ClassicalRegister : pyval := VLib "qiskit" "ClassicalRegister".
Definition logging : pyval := VModule "logging".
Definition set_aqua_logging : pyval := VLib "qiskit_aqua._logging" "set_aqua_logging".
Definition FermionicOperator : pyval := VLib "qiskit_chemistry" "FermionicOperator".
Definition PySCFDriver : pyval := VLib "qiskit_chemistry.drivers" "PySCFDriver".
Definition UnitsType : pyval := VLib "qiskit_chemistry.drivers" "UnitsType".
Definition SPSA : pyval := VLib "qiskit_aqua.components.optimizers" "SPSA".
Definition HartreeFock : pyval :=
  VLib "qiskit_chemistry.aqua_extensions.components.initial_states" "HartreeFock".
Definition RYRZ : pyval := VLib "qiskit_aqua.components.variational_forms" "RYRZ".
Definition VQE : pyval := VLib "qiskit_aqua.algorithms" "VQE".
Definition QuantumInstance : pyval := VLib "qiskit_aqua" "QuantumInstance".

(** ** The notebook

    Code cells in document order; markdown cells carry no code.  Temporaries
    of chained expressions ([a().b().c()]) get a name of their own. *)

Definition notebook : script :=
  ( (* !pip install --no-cache qiskit *)
    Shell "pip install --no-cache qiskit" ;;
    (* !pip install qiskit-aqua *)
    Shell "pip install qiskit-aqua" ;;
    (* !pip install qiskit-chemistry *)
    Shell "pip install qiskit-chemistry" ;;
    (* !pip install pyscf *)
    Shell "pip install pyscf" ;;

    (* "And some imports" *)
    ImportFrom "qiskit" ["Aer"; "IBMQ"; "execute"] ;;
    ImportFrom "qiskit.providers.aer" ["noise"] ;;
    ImportFrom "qiskit" ["QuantumCircuit"; "QuantumRegister"; "ClassicalRegister"] ;;
    ImportFrom "qiskit.tools.monitor" ["job_monitor"] ;;

    (* "Creating a Noise Model Based on a Real Device" *)
    CallMethod IBMQ "load_accounts" [] [] ;;
    Print [VStr "Available backends:"] ;;
    backends <- CallMethod IBMQ "backends" [] [] ;;
    Display backends ;;

    (* "Pull device information" *)
    device <- CallMethod IBMQ "get_backend" [VStr "ibmq_poughkeepsie"] [] ;;
    properties <- CallMethod device "properties" [] [] ;;
    configuration <- CallMethod device "configuration" [] [] ;;
    coupling_map <- GetAttr configuration "coupling_map" ;;

    (* "Construct the Noise Model" *)
    ImportFrom "qiskit.providers.aer" ["noise"] ;;
    noise_device <- GetAttr noise "device" ;;
    noise_model <- CallMethod noise_device "basic_device_noise_model" [properties] [] ;;

    (* "Running a Circuit with Noise in Aer through Terra" *)
    qr <- Call QuantumRegister [VInt 3] [] ;;
    cr <- Call ClassicalRegister [VInt 3] [] ;;
    circuit <- Call QuantumCircuit [qr; cr] [] ;;
    qr_0 <- GetItem qr (VInt 0) ;;
    CallMethod circuit "h" [qr_0] [] ;;
    qr_0 <- GetItem qr (VInt 0) ;;
    qr_1 <- GetItem qr (VInt 1) ;;
    CallMethod circuit "cx" [qr_0; qr_1] [] ;;
    qr_1 <- GetItem qr (VInt 1) ;;
    qr_2 <- GetItem qr (VInt 2) ;;
    CallMethod circuit "cx" [qr_1; qr_2] [] ;;
    CallMethod circuit "barrier" [] [] ;;
    CallMethod circuit "measure" [qr; cr] [] ;;
    drawing <- CallMethod circuit "draw" [] [] ;;
    Display drawing ;;

    (* "Running without Noise" *)
    simulator <- CallMethod Aer "get_backend" [VStr "qasm_simulator"] [] ;;
    job <- Call execute [circuit; simulator] [] ;;
    result <- CallMethod job "result" [] [] ;;
    counts <- CallMethod result "get_counts" [] [] ;;
    Display counts ;;

    (* "Running with Our Noise Model" *)
    basis_gates <- GetAttr noise_model "basis_gates" ;;
    job_noise <- Call execute [circuit; simulator]
                   [("noise_model", noise_model);
                    ("coupling_map", coupling_map);
                    ("basis_gates", basis_gates)] ;;
    result_noise <- CallMethod job_noise "result" [] [] ;;
    counts_noise <- CallMethod result_noise "get_counts" [circuit] [] ;;
    Print [counts_noise] ;;

    (* "Running Aqua and Chemistry Calculations with Noise" *)
    Import "logging" ;;
    ImportFrom "qiskit_aqua._logging"
      ["set_logging_config"; "build_logging_config"; "set_aqua_logging"] ;;
    logging_DEBUG <- GetAttr logging "DEBUG" ;;
    Call set_aqua_logging [logging_DEBUG] [] ;;

    ImportFrom "collections" ["OrderedDict"] ;;
    ImportFrom "qiskit_chemistry" ["FermionicOperator"] ;;
    ImportFrom "qiskit_chemistry.drivers" ["PySCFDriver"; "UnitsType"] ;;
    ANGSTROM <- GetAttr UnitsType "ANGSTROM" ;;
    driver <- Call PySCFDriver []
                [("atom", VStr "H .0 .0 .0; H .0 .0 0.735");
                 ("unit", ANGSTROM);
                 ("charge", VInt 0);
                 ("spin", VInt 0);
                 ("basis", VStr "sto3g")] ;;
    molecule <- CallMethod driver "run" [] [] ;;
    num_alpha <- GetAttr molecule "num_alpha" ;;
    num_beta <- GetAttr molecule "num_beta" ;;
    num_particles <-- py_add num_alpha num_beta ;;
    num_orbitals <- GetAttr molecule "num_orbitals" ;;
    num_spin_orbitals <-- py_mult num_orbitals (VInt 2) ;;

    one_body_integrals <- GetAttr molecule "one_body_integrals" ;;
    two_body_integrals <- GetAttr molecule "two_body_integrals" ;;
    ferOp <- Call FermionicOperator []
               [("h1", one_body_integrals); ("h2", two_body_integrals)] ;;
    let map_type := VStr "PARITY" in
    qubitOp <- CallMethod ferOp "mapping" [map_type] [] ;;
    qubitOp <- CallMethod qubitOp "two_qubit_reduced_operator" [num_particles] [] ;;
    num_qubits <- GetAttr qubitOp "num_qubits" ;;

    ImportFrom "qiskit_aqua.components.optimizers" ["SPSA"] ;;
    optimizer <- Call SPSA [] [] ;;

    ImportFrom "qiskit_chemistry.aqua_extensions.components.initial_states"
      ["HartreeFock"] ;;
    init_state <- Call HartreeFock [num_qubits; num_spin_orbitals; num_particles] [] ;;

    ImportFrom "qiskit_aqua.components.variational_forms" ["RYRZ"] ;;
    var_form <- Call RYRZ [num_qubits] [("initial_state", init_state)] ;;

    ImportFrom "qiskit_aqua.algorithms" ["VQE"] ;;
    algorithm <- Call VQE [qubitOp; var_form; optimizer] [] ;;

    (* "Running VQE with Noise" *)
    ImportFrom "qiskit_aqua" ["QuantumInstance"] ;;
    quantum_instance <- Call QuantumInstance []
                          [("backend", simulator); ("noise_model", noise_model)] ;;
    result <- CallMethod algorithm "run" [quantum_instance] [] ;;
    Print [result] ;;
    Ret VNone )%script.


(** ** Reading a log *)

(** Two imported names denote the same library export. *)
Definition same_import (f g : pyval) : bool :=
  match f, g with
  | VLib m n, VLib m' n' => (m =? m')%string && (n =? n')%string
  | VModule m, VModule m' => (m =? m')%string
  | _, _ => false
  end.

Definition call_is (f : pyval) (o : op) : bool :=
  match o with
  | Call g _ _ => same_import g f
  | _ => false
  end.

Definition method_is (name : string) (o : op) : bool :=
  match o with
  | CallMethod _ m _ _ => (m =? name)%string
  | _ => false
  end.

Definition attr_is (name : string) (o : op) : bool :=
  match o with
  | GetAttr _ a => (a =? name)%string
  | _ => false
  end.

Definition has_keyword (name : string) (o : op) : bool :=
  match o with
  | Call _ _ kws | CallMethod _ _ _ kws =>
      existsb (fun kw => (fst kw =? name)%string) kws
  | _ => false
  end.

Definition is_output (o : op) : bool :=
  match o with
  | Print _ | Display _ => true
  | _ => false
  end.

Definition select (p : op -> bool) (tr : trace) : trace :=
  filter (fun ev => p (fst ev)) tr.

(** The calls of the imported function or class [f], in order. *)
Definition calls_of (f : pyval) : trace -> trace := select (call_is f).

(** The calls of a method called [name], on whatever receiver, in order. *)
Definition method_calls (name : string) : trace -> trace := select (method_is name).

(** The reads of an attribute called [name], in order. *)
Definition attr_reads (name : string) : trace -> trace := select (attr_is name).

(** The calls that pass a keyword argument called [name], in order. *)
Definition keyword_uses (name : string) : trace -> trace := select (has_keyword name).

(** What the notebook shows: the operations handed to [print] and to the
    display of a cell's value, in order. *)
Definition outputs (tr : trace) : list op := map fst (select is_output tr).

(** The part of a log before the first operation satisfying [p], and the
    part after it. *)
Fixpoint until (p : op -> bool) (tr : trace) : trace :=
  match tr with
  | [] => []
  | ev :: tr' => if p (fst ev) then [] else ev :: until p tr'
  end.

Fixpoint after (p : op -> bool) (tr : trace) : trace :=
  match tr with
  | [] => []
  | ev :: tr' => if p (fst ev) then tr' else after p tr'
  end.


(** ** The five stages of the notebook

    Every operation that does the work of a stage is classified by what it
    invokes.  Import statements, output and Python operators only bind
    names, show values or combine them; they belong to no stage. *)

Inductive stage : Type :=
| Setup              (* install the SDK and chemistry packages *)
| FetchCalibration   (* authenticate, fetch the device's calibration data *)
| BuildNoiseModel    (* build the noise model from the calibration data *)
| ToyCircuit         (* construct and run the toy circuit *)
| Chemistry.         (* the chemistry / VQE workflow *)

Definition all_stages : list stage :=
  [Setup; FetchCalibration; BuildNoiseModel; ToyCircuit; Chemistry].

Definition stage_eqb (a b : stage) : bool :=
  match a, b with
  | Setup, Setup | FetchCalibration, FetchCalibration
  | BuildNoiseModel, BuildNoiseModel | ToyCircuit, ToyCircuit
  | Chemistry, Chemistry => true
  | _, _ => false
  end.

Fixpoint lookup {A : Type} (key : string) (table : list (string * A)) : option A :=
  match table with
  | [] => None
  | (k, a) :: table' => if (k =? key)%string then Some a else lookup key table'
  end.

Definition callable_stages : list (pyval * stage) :=
  [ (QuantumRegister, ToyCircuit); (ClassicalRegister, ToyCircuit);
    (QuantumCircuit, ToyCircuit); (execute, ToyCircuit);
    (set_aqua_logging, Chemistry); (PySCFDriver, Chemistry);
    (FermionicOperator, Chemistry); (SPSA, Chemistry); (HartreeFock, Chemistry);
    (RYRZ, Chemistry); (VQE, Chemistry); (QuantumInstance, Chemistry) ].

Definition method_stages : list (string * stage) :=
  [ ("load_accounts", FetchCalibration); ("backends", FetchCalibration);
    ("properties", FetchCalibration); ("configuration", FetchCalibration);
    ("basic_device_noise_model", BuildNoiseModel);
    ("h", ToyCircuit); ("cx", ToyCircuit); ("barrier", ToyCircuit);
    ("measure", ToyCircuit); ("draw", ToyCircuit);
    ("result", ToyCircuit); ("get_counts", ToyCircuit);
    ("run", Chemistry); ("mapping", Chemistry);
    ("two_qubit_reduced_operator", Chemistry) ].

Definition attr_stages : list (string * stage) :=
  [ ("coupling_map", FetchCalibration);
    ("device", BuildNoiseModel);
    ("basis_gates", ToyCircuit);
    ("DEBUG", Chemistry); ("ANGSTROM", Chemistry);
    ("num_alpha", Chemistry); ("num_beta", Chemistry); ("num_orbitals", Chemistry);
    ("one_body_integrals", Chemistry); ("two_body_integrals", Chemistry);
    ("num_qubits", Chemistry) ].

Definition stage_of (o : op) : option stage :=
  match o with
  | Shell _ => Some Setup
  | Import _ | ImportFrom _ _ | Print _ | Display _ | BinOp _ _ _ => None
  | Call f _ _ =>
      option_map snd (find (fun row => same_import f (fst row)) callable_stages)
  | CallMethod self m _ _ =>
      if (m =? "get_backend")%string then
        (* the cloud provider's backend or the local simulator's *)
        if same_import self IBMQ then Some FetchCalibration
        else if same_import self Aer then Some ToyCircuit
        else None
      else lookup m method_stages
  | GetAttr _ a => lookup a attr_stages
  | GetItem _ _ => Some ToyCircuit
  end.

(** Operations that belong to no stage. *)
Definition bookkeeping (o : op) : bool :=
  match o with
  | Import _ | ImportFrom _ _ | Print _ | Display _ | BinOp _ _ _ => true
  | _ => false
  end.

Definition accounted (o : op) : bool :=
  match stage_of o with
  | Some _ => true
  | None => bookkeeping o
  end.

Fixpoint stages (tr : trace) : list stage :=
  match tr with
  | [] => []
  | ev :: tr' =>
      match stage_of (fst ev) with
      | Some st => st :: stages tr'
      | None => stages tr'
      end
  end.

(** Adjacent repetitions removed: the stages in the order they are entered. *)
Fixpoint squash (l : list stage) : list stage :=
  match l with
  | [] => []
  | a :: l' =>
      match l' with
      | b :: _ => if stage_eqb a b then squash l' else a :: squash l'
      | [] => [a]
      end
  end.

Definition phases (tr : trace) : list stage := squash (stages tr).

(** The first eight statements: four installs, then the SDK imports. *)
Definition setup_block : list op :=
  [ Shell "pip install --no-cache qiskit";
    Shell "pip install qiskit-aqua";
    Shell "pip install qiskit-chemistry";
    Shell "pip install pyscf";
    ImportFrom "qiskit" ["Aer"; "IBMQ"; "execute"];
    ImportFrom "qiskit.providers.aer" ["noise"];
    ImportFrom "qiskit" ["QuantumCircuit"; "QuantumRegister"; "ClassicalRegister"];
    ImportFrom "qiskit.tools.monitor" ["job_monitor"] ].

(** The top-level package of a dotted module name. *)
Fixpoint package (module : string) : string :=
  match module with
  | EmptyString => EmptyString
  | String c rest => if (c =? ".")%char then EmptyString else String c (package rest)
  end.

(** Python's concurrent-execution packages.  A script reaches a thread,
    process, future or event loop only through one of them. *)
Definition concurrency_packages : list string :=
  [ "threading"; "_thread"; "multiprocessing"; "concurrent"; "asyncio";
    "subprocess"; "sched"; "queue" ].

Definition imports_concurrency (o : op) : bool :=
  match o with
  | Import m | ImportFrom m _ =>
      existsb (String.eqb (package m)) concurrency_packages
  | _ => false
  end.

(** ** Where the values come from

    A script that defines no function, class or data type of its own can
    only call what it imported and can only pass on what it was handed:
    every operand of every operation is a scalar literal (or integer
    arithmetic on scalars), a name bound by an earlier import statement, or
    a value some earlier operation replied with. *)

Definition operands (o : op) : list pyval :=
  match o with
  | Shell _ | Import _ | ImportFrom _ _ => []
  | Call f args kws => f :: args ++ map snd kws
  | CallMethod self _ args kws => self :: args ++ map snd kws
  | GetAttr v _ => [v]
  | GetItem v i => [v; i]
  | BinOp _ l r => [l; r]
  | Print args => args
  | Display v => [v]
  end.

Definition scalar (x : pyval) : bool :=
  match x with
  | VNone | VInt _ | VStr _ | VFloat _ _ => true
  | _ => false
  end.

(** [x] is a name bound by one of the import statements [imports]. *)
Definition imported (imports : list op) (x : pyval) : bool :=
  match x with
  | VLib m n =>
      existsb (fun o => match o with
                        | ImportFrom m' names =>
                            (m' =? m)%string && existsb (String.eqb n) names
                        | _ => false
                        end) imports
  | VModule m =>
      existsb (fun o => match o with
                        | Import m' => (m' =? m)%string
                        | _ => false
                        end) imports
  | _ => false
  end.

Definition from_outside (imports : list op) (received : list pyval) (x : pyval) : Prop :=
  In x received \/ scalar x = true \/ imported imports x = true.

Definition note_import (o : op) (imports : list op) : list op :=
  match o with
  | Import _ | ImportFrom _ _ => o :: imports
  | _ => imports
  end.

Definition note_reply (r : reply) (received : list pyval) : list pyval :=
  match r with
  | Reply v => v :: received
  | Throws _ => received
  end.

(** A log all of whose operands come from outside, given the imports done
    and the values received before it. *)
Fixpoint sourced (imports : list op) (received : list pyval) (tr : trace) : Prop :=
  match tr with
  | [] => True
  | (o, r) :: tr' =>
      Forall (from_outside imports received) (operands o) /\
      sourced (note_import o imports) (note_reply r received) tr'
  end.

(** The same, read off a script: along every path. *)
Fixpoint well_sourced (imports : list op) (received : list pyval) (s : script) : Prop :=
  match s with
  | Ret _ => True
  | Do o k =>
      Forall (from_outside imports received) (operands o) /\
      forall v, well_sourced (note_import o imports) (v :: received) (k v)
  | Raise _ => True
  | TryExcept _ _ _ => False
  end.

(** ** The toy circuit and its noiseless semantics

    The simulator is library code.  What the notebook's own text says about
    it: with no noise model the [qasm_simulator] computes the final pure
    statevector and samples the shots from the distribution that
    statevector describes.  The statevector of a circuit of Hadamard and
    controlled-NOT gates is computed here exactly: amplitudes are kept as
    integers, the common factor 1/sqrt 2 per Hadamard left out, which does
    not change which outcomes have non-zero probability. *)

Inductive gate : Type :=
| H (q : Z)                  (* circuit.h(qr[q]) *)
| CX (control target : Z)    (* circuit.cx(qr[control], qr[target]) *)
| Barrier                    (* circuit.barrier() *)
| MeasureAll.                (* circuit.measure(qr, cr) *)

(** The circuit the notebook builds, gate by gate. *)
Definition toy_circuit : list gate :=
  [H 0; CX 0 1; CX 1 2; Barrier; MeasureAll].

(** How a log spells a gate sequence on circuit [circuit] over registers
    [qr] and [cr]: each gate's qubit operands are the values obtained by
    indexing [qr] just before the call. *)
Inductive spells (qr cr circuit : pyval) : trace -> list gate -> Prop :=
| spells_nil : spells qr cr circuit [] []
| spells_h q a r log gates :
    spells qr cr circuit log gates ->
    spells qr cr circuit
      ((GetItem qr (VInt q), Reply a) ::
       (CallMethod circuit "h" [a] [], r) :: log)
      (H q :: gates)
| spells_cx c t a b r log gates :
    spells qr cr circuit log gates ->
    spells qr cr circuit
      ((GetItem qr (VInt c), Reply a) ::
       (GetItem qr (VInt t), Reply b) ::
       (CallMethod circuit "cx" [a; b] [], r) :: log)
      (CX c t :: gates)
| spells_barrier r log gates :
    spells qr cr circuit log gates ->
    spells qr cr circuit
      ((CallMethod circuit "barrier" [] [], r) :: log)
      (Barrier :: gates)
| spells_measure r log gates :
    spells qr cr circuit log gates ->
    spells qr cr circuit
      ((CallMethod circuit "measure" [qr; cr] [], r) :: log)
      (MeasureAll :: gates).

(** Everything between the creation of the circuit and its first
    execution. *)
Definition circuit_log (tr : trace) : trace :=
  until (call_is execute) (after (call_is QuantumCircuit) tr).

(** A state of [n] qubits: one integer amplitude per basis state [x],
    [0 <= x < 2^n], qubit [q] being bit [q] of [x]. *)
Definition amplitudes : Type := list Z.

Definition basis (n : Z) : list Z := map Z.of_nat (seq 0 (Z.to_nat (2 ^ n))).

Definition amp (st : amplitudes) (x : Z) : Z := nth (Z.to_nat x) st 0.

Definition ground (n : Z) : amplitudes :=
  map (fun x => if x =? 0 then 1 else 0) (basis n).

Definition apply_gate (n : Z) (g : gate) (st : amplitudes) : amplitudes :=
  match g with
  | H q =>
      map (fun x =>
             let y := Z.lxor x (2 ^ q) in
             if Z.testbit x q then amp st y - amp st x else amp st x + amp st y)
          (basis n)
  | CX c t =>
      map (fun x => amp st (if Z.testbit x c then Z.lxor x (2 ^ t) else x))
          (basis n)
  | Barrier | MeasureAll => st
  end.

Definition statevector (n : Z) (gates : list gate) : amplitudes :=
  fold_left (fun st g => apply_gate n g st) gates (ground n).

(** The bitstring of basis state [x]: classical bit [n-1] first, bit 0
    last, as the counts dictionary prints it. *)
Fixpoint bits (n : nat) (x : Z) : string :=
  match n with
  | O => EmptyString
  | S k => String (if Z.testbit x (Z.of_nat k) then "1"%char else "0"%char) (bits k x)
  end.

Definition bitstring (n : Z) (x : Z) : string := bits (Z.to_nat n) x.

Definition ends_with_measurement (gates : list gate) : bool :=
  match rev gates with
  | MeasureAll :: before =>
      forallb (fun g => match g with MeasureAll => false | _ => true end) before
  | _ => false
  end.

(** A counts dictionary: what it says about one outcome. *)
Definition count_of (key : string) (items : list (string * pyval)) : Z :=
  match lookup key items with
  | Some (VInt c) => c
  | _ => 0
  end.

(** ** Properties of all runs, read off the script

    A script without [raise] and [try] is a chain of operations.  For such
    a script a property of every completed run ([on_return]) or of every
    run, completed or not ([on_every_run]), unfolds along the chain, one
    universally quantified reply per operation. *)

Fixpoint linear (s : script) : Prop :=
  match s with
  | Ret _ => True
  | Do _ k => forall v, linear (k v)
  | Raise _ => False
  | TryExcept _ _ _ => False
  end.

Fixpoint on_return (Q : trace -> pyval -> Prop) (s : script) : Prop :=
  match s with
  | Ret v => Q [] v
  | Do o k => forall v, on_return (fun tr => Q ((o, Reply v) :: tr)) (k v)
  | Raise _ => True
  | TryExcept _ _ _ => False
  end.

Fixpoint on_every_run (P : trace -> outcome -> Prop) (s : script) : Prop :=
  match s with
  | Ret v => P [] (Returned v)
  | Do o k =>
      (forall e, P [(o, Throws e)] (Raised e)) /\
      (forall v, on_every_run (fun tr => P ((o, Reply v) :: tr)) (k v))
  | Raise e => P [] (Raised e)
  | TryExcept _ _ _ => False
  end.

(** The value of [l + r] (resp. [l * r]) in a run with log [tr]: computed
    by the interpreter on integers, replied by the operands' library
    otherwise. *)
Definition python_add (tr : trace) (l r v : pyval) : Prop :=
  (exists a b, l = VInt a /\ r = VInt b /\ v = VInt (a + b)) \/
  In (BinOp Add l r, Reply v) tr.

Definition python_mult (tr : trace) (l r v : pyval) : Prop :=
  (exists a b, l = VInt a /\ r = VInt b /\ v = VInt (a * b)) \/
  In (BinOp Mult l r, Reply v) tr.

(** ** Sessions

    A concrete outside world, to run the notebook in.  It hands out fresh
    object identities, knows whether IBMQ credentials are stored, and holds
    what the two samplers will produce.  The molecule is the
    notebook's: H2 ('H .0 .0 .0; H .0 .0 0.735') in the sto3g basis has one
    alpha and one beta electron and two spatial orbitals, and its
    parity-mapped, two-qubit-reduced operator acts on two qubits. *)

Record world : Type := World {
  next_id : N;
  credentials : bool;
  ideal_shots : list (string * pyval);
  noisy_shots : list (string * pyval)
}.

Definition fresh (w : world) : reply * world :=
  (Reply (VObj (next_id w)),
   World (N.succ (next_id w)) (credentials w) (ideal_shots w) (noisy_shots w)).

Definition session (o : op) (w : world) : reply * world :=
  match o with
  | Shell _ | Import _ | ImportFrom _ _ | Print _ | Display _ => (Reply VNone, w)
  | CallMethod _ m args _ =>
      if (m =? "load_accounts")%string then
        if credentials w then (Reply VNone, w)
        else (Throws (Exn "IBMQAccountError" "No IBMQ credentials found on disk."), w)
      else if (m =? "get_counts")%string then
        match args with
        | [] => (Reply (VDict (ideal_shots w)), w)
        | _ :: _ => (Reply (VDict (noisy_shots w)), w)
        end
      else fresh w
  | Call f _ _ =>
      if same_import f set_aqua_logging then (Reply VNone, w) else fresh w
  | GetAttr _ a =>
      if (a =? "DEBUG")%string then (Reply (VInt 10), w)
      else if (a =? "num_alpha")%string then (Reply (VInt 1), w)
      else if (a =? "num_beta")%string then (Reply (VInt 1), w)
      else if (a =? "num_orbitals")%string then (Reply (VInt 2), w)
      else if (a =? "num_qubits")%string then (Reply (VInt 2), w)
      else fresh w
  | _ => fresh w
  end.

(** The session whose outputs the notebook file stores: the counts
    displayed under "Running without Noise" and printed under "Running
    with Our Noise Model".  The file stores no output for the VQE cell. *)
Definition recorded_session : world :=
  World 0 true
    [("000", VInt 512); ("111", VInt 512)]
    [("110", VInt 25); ("000", VInt 436); ("001", VInt 30); ("100", VInt 20);
     ("010", VInt 19); ("101", VInt 18); ("011", VInt 18); ("111", VInt 458)].


Definition log_of (w : world) : trace := snd (fst (run session notebook w)).

Definition recorded_log : trace := Eval vm_compute in log_of recorded_session.
Definition recorded_end : world := Eval vm_compute in snd (run session notebook recorded_session).

(** ** What the results say of one run *)

(** The stages entered so far are an initial segment of the five stages in
    their order, every operation belongs to a stage or is bookkeeping, no
    import reaches a concurrency package, and a completed run has gone
    through all five stages after the setup block. *)
Definition staged (tr : trace) (out : outcome) : Prop :=
  (exists later, phases tr ++ later = all_stages) /\
  Forall (fun ev => accounted (fst ev) = true) tr /\
  Forall (fun ev => imports_concurrency (fst ev) = false) tr /\
  match out with
  | Returned _ => phases tr = all_stages /\ map fst (firstn 8 tr) = setup_block
  | Raised _ => True
  end.

(** One circuit over a 3-qubit and a 3-bit register; two executions of it
    on the [qasm_simulator] backend, the first with no keyword argument,
    the second with the noise model built from the device. *)
Definition one_circuit_run_twice (tr : trace) : Prop :=
  exists qr cr circuit simulator job job_noise noise_device properties
         noise_model coupling_map basis_gates,
    calls_of QuantumRegister tr = [ (Call QuantumRegister [VInt 3] [], Reply qr) ] /\
    calls_of ClassicalRegister tr = [ (Call ClassicalRegister [VInt 3] [], Reply cr) ] /\
    calls_of QuantumCircuit tr = [ (Call QuantumCircuit [qr; cr] [], Reply circuit) ] /\
    In (CallMethod Aer "get_backend" [VStr "qasm_simulator"] [], Reply simulator) tr /\
    method_calls "basic_device_noise_model" tr =
      [ (CallMethod noise_device "basic_device_noise_model" [properties] [],
         Reply noise_model) ] /\
    calls_of execute tr =
      [ (Call execute [circuit; simulator] [], Reply job);
        (Call execute [circuit; simulator]
           [("noise_model", noise_model);
            ("coupling_map", coupling_map);
            ("basis_gates", basis_gates)], Reply job_noise) ].

(** The work of the calibration and noise-model stages. *)
Definition calibration_work (o : op) : bool :=
  match stage_of o with
  | Some FetchCalibration | Some BuildNoiseModel => true
  | _ => false
  end.

(** Driver, molecule, fermionic operator from the two integrals, parity
    mapping, two-qubit reduction, VQE on the reduced operator, run on a
    QuantumInstance holding the simulator and the noise model built from
    the device. *)
Definition vqe_on_reduced_operator_with_noise (tr : trace) : Prop :=
  exists ANGSTROM driver molecule one_body_integrals two_body_integrals ferOp
         qubitOp_parity num_particles qubitOp var_form optimizer algorithm
         noise_device properties noise_model simulator quantum_instance
         result printed,
    calls_of PySCFDriver tr =
      [ (Call PySCFDriver []
           [("atom", VStr "H .0 .0 .0; H .0 .0 0.735");
            ("unit", ANGSTROM);
            ("charge", VInt 0);
            ("spin", VInt 0);
            ("basis", VStr "sto3g")], Reply driver) ] /\
    attr_reads "one_body_integrals" tr =
      [ (GetAttr molecule "one_body_integrals", Reply one_body_integrals) ] /\
    attr_reads "two_body_integrals" tr =
      [ (GetAttr molecule "two_body_integrals", Reply two_body_integrals) ] /\
    calls_of FermionicOperator tr =
      [ (Call FermionicOperator []
           [("h1", one_body_integrals); ("h2", two_body_integrals)], Reply ferOp) ] /\
    method_calls "mapping" tr =
      [ (CallMethod ferOp "mapping" [VStr "PARITY"] [], Reply qubitOp_parity) ] /\
    method_calls "two_qubit_reduced_operator" tr =
      [ (CallMethod qubitOp_parity "two_qubit_reduced_operator" [num_particles] [],
         Reply qubitOp) ] /\
    calls_of VQE tr =
      [ (Call VQE [qubitOp; var_form; optimizer] [], Reply algorithm) ] /\
    method_calls "basic_device_noise_model" tr =
      [ (CallMethod noise_device "basic_device_noise_model" [properties] [],
         Reply noise_model) ] /\
    In (CallMethod Aer "get_backend" [VStr "qasm_simulator"] [], Reply simulator) tr /\
    calls_of QuantumInstance tr =
      [ (Call QuantumInstance []
           [("backend", simulator); ("noise_model", noise_model)],
         Reply quantum_instance) ] /\
    method_calls "run" tr =
      [ (CallMethod driver "run" [] [], Reply molecule);
        (CallMethod algorithm "run" [quantum_instance] [], Reply result) ] /\
    In (Print [result], Reply printed) tr.

(** The objects the notebook handles, each with the library call that
    produced it and the place it is handed on to. *)
Definition objects_from_library_calls (tr : trace) : Prop :=
  exists qr cr circuit noise_device properties noise_model simulator
         coupling_map basis_gates job job_noise result counts result_noise
         counts_noise qubitOp_parity num_particles qubitOp optimizer
         num_qubits num_spin_orbitals init_state var_form algorithm
         quantum_instance vqe_result shown printed_noise printed,
    In (Call QuantumCircuit [qr; cr] [], Reply circuit) tr /\
    In (CallMethod noise_device "basic_device_noise_model" [properties] [],
        Reply noise_model) tr /\
    In (Call execute [circuit; simulator] [], Reply job) tr /\
    In (CallMethod job "result" [] [], Reply result) tr /\
    In (CallMethod result "get_counts" [] [], Reply counts) tr /\
    In (Display counts, Reply shown) tr /\
    In (Call execute [circuit; simulator]
          [("noise_model", noise_model);
           ("coupling_map", coupling_map);
           ("basis_gates", basis_gates)], Reply job_noise) tr /\
    In (CallMethod job_noise "result" [] [], Reply result_noise) tr /\
    In (CallMethod result_noise "get_counts" [circuit] [], Reply counts_noise) tr /\
    In (Print [counts_noise], Reply printed_noise) tr /\
    In (CallMethod qubitOp_parity "two_qubit_reduced_operator" [num_particles] [],
        Reply qubitOp) tr /\
    In (Call SPSA [] [], Reply optimizer) tr /\
    In (Call HartreeFock [num_qubits; num_spin_orbitals; num_particles] [],
        Reply init_state) tr /\
    In (Call RYRZ [num_qubits] [("initial_state", init_state)], Reply var_form) tr /\
    In (Call VQE [qubitOp; var_form; optimizer] [], Reply algorithm) tr /\
    In (CallMethod algorithm "run" [quantum_instance] [], Reply vqe_result) tr /\
    In (Print [vqe_result], Reply printed) tr.

(** The counts of the execution without noise: the reply to the first
    [get_counts] of the run. *)
Definition noiseless_counts (tr : trace) : option pyval :=
  match method_calls "get_counts" tr with
  | (_, Reply counts) :: _ => Some counts
  | _ => None
  end.

(** The noisy execution is the only call with a [basis_gates] keyword; its
    value is what reading [basis_gates] off the noise model replied, read
    once, immediately before the call, off the same noise model the call
    receives. *)
Definition basis_gates_from_noise_model (tr : trace) : Prop :=
  exists noise_device properties noise_model basis_gates circuit simulator
         coupling_map job_noise later,
    method_calls "basic_device_noise_model" tr =
      [ (CallMethod noise_device "basic_device_noise_model" [properties] [],
         Reply noise_model) ] /\
    attr_reads "basis_gates" tr =
      [ (GetAttr noise_model "basis_gates", Reply basis_gates) ] /\
    keyword_uses "basis_gates" tr =
      [ (Call execute [circuit; simulator]
           [("noise_model", noise_model);
            ("coupling_map", coupling_map);
            ("basis_gates", basis_gates)], Reply job_noise) ] /\
    after (attr_is "basis_gates") tr =
      (Call execute [circuit; simulator]
         [("noise_model", noise_model);
          ("coupling_map", coupling_map);
          ("basis_gates", basis_gates)], Reply job_noise) :: later.

(** [num_particles] is [num_alpha + num_beta] and [num_spin_orbitals] is
    [num_orbitals * 2], all three read off the one molecule; the reduction
    gets that [num_particles]; [num_qubits] is read once, off the reduced
    operator, and is the qubit count of both HartreeFock and RYRZ. *)
Definition chemistry_quantities_consistent (tr : trace) : Prop :=
  exists molecule num_alpha num_beta num_orbitals num_particles num_spin_orbitals
         qubitOp_parity qubitOp num_qubits init_state var_form,
    attr_reads "num_alpha" tr = [ (GetAttr molecule "num_alpha", Reply num_alpha) ] /\
    attr_reads "num_beta" tr = [ (GetAttr molecule "num_beta", Reply num_beta) ] /\
    attr_reads "num_orbitals" tr =
      [ (GetAttr molecule "num_orbitals", Reply num_orbitals) ] /\
    python_add tr num_alpha num_beta num_particles /\
    python_mult tr num_orbitals (VInt 2) num_spin_orbitals /\
    (forall a b, num_alpha = VInt a -> num_beta = VInt b ->
                 num_particles = VInt (a + b)) /\
    (forall n, num_orbitals = VInt n -> num_spin_orbitals = VInt (2 * n)) /\
    method_calls "two_qubit_reduced_operator" tr =
      [ (CallMethod qubitOp_parity "two_qubit_reduced_operator" [num_particles] [],
         Reply qubitOp) ] /\
    attr_reads "num_qubits" tr = [ (GetAttr qubitOp "num_qubits", Reply num_qubits) ] /\
    calls_of HartreeFock tr =
      [ (Call HartreeFock [num_qubits; num_spin_orbitals; num_particles] [],
         Reply init_state) ] /\
    calls_of RYRZ tr =
      [ (Call RYRZ [num_qubits] [("initial_state", init_state)], Reply var_form) ].

(** ** Properties of every operation, read off the script *)

Fixpoint every_op (p : op -> bool) (s : script) : Prop :=
  match s with
  | Ret _ => True
  | Do o k => p o = true /\ forall v, every_op p (k v)
  | Raise _ => True
  | TryExcept _ _ _ => False
  end.

Definition is_subscript (o : op) : bool :=
  match o with GetItem _ _ => true | _ => false end.


(** A subscript with a literal index inside a register of [size]. *)
Definition subscript_within (size : Z) (o : op) : bool :=
  match o with
  | GetItem _ (VInt i) => (0 <=? i) && (i <? size)
  | GetItem _ _ => false
  | _ => true
  end.

Definition keyword_names (o : op) : list string :=
  match o with
  | Call _ _ kws | CallMethod _ _ _ kws => map fst kws
  | _ => []
  end.

(** The keyword arguments the notebook writes, all calls together. *)
Definition keywords_passed : list string :=
  [ "noise_model"; "coupling_map"; "basis_gates";
    "atom"; "unit"; "charge"; "spin"; "basis";
    "h1"; "h2"; "initial_state"; "backend" ].

Definition keywords_known (o : op) : bool :=
  forallb (fun k => existsb (String.eqb k) keywords_passed) (keyword_names o).

(** Names the notebook imports and does not use. *)
Definition job_monitor : pyval := VLib "qiskit.tools.monitor" "job_monitor".
Definition OrderedDict : pyval := VLib "collections" "OrderedDict".
Definition set_logging_config : pyval := VLib "qiskit_aqua._logging" "set_logging_config".
Definition build_logging_config : pyval :=
  VLib "qiskit_aqua._logging" "build_logging_config".

Definition unused_imports : list pyval :=
  [job_monitor; OrderedDict; set_logging_config; build_logging_config].

Definition calls_unused (o : op) : bool :=
  existsb (fun x => call_is x o) unused_imports.

(** The five subscripts of a completed run, all on the quantum register of
    size 3. *)
Definition subscripts_on_the_register (tr : trace) : Prop :=
  exists qr,
    calls_of QuantumRegister tr = [ (Call QuantumRegister [VInt 3] [], Reply qr) ] /\
    map fst (select is_subscript tr) =
      [ GetItem qr (VInt 0); GetItem qr (VInt 0); GetItem qr (VInt 1);
        GetItem qr (VInt 1); GetItem qr (VInt 2) ].

(** Two backends are obtained, the cloud device and the local simulator;
    both executions and the QuantumInstance name the simulator, and the
    noise model goes to the noisy execution and to the QuantumInstance
    only. *)
Definition everything_runs_on_the_simulator (tr : trace) : Prop :=
  exists device simulator circuit job job_noise noise_model coupling_map
         basis_gates quantum_instance,
    method_calls "get_backend" tr =
      [ (CallMethod IBMQ "get_backend" [VStr "ibmq_poughkeepsie"] [], Reply device);
        (CallMethod Aer "get_backend" [VStr "qasm_simulator"] [], Reply simulator) ] /\
    calls_of execute tr =
      [ (Call execute [circuit; simulator] [], Reply job);
        (Call execute [circuit; simulator]
           [("noise_model", noise_model);
            ("coupling_map", coupling_map);
            ("basis_gates", basis_gates)], Reply job_noise) ] /\
    keyword_uses "backend" tr =
      [ (Call QuantumInstance []
           [("backend", simulator); ("noise_model", noise_model)],
         Reply quantum_instance) ] /\
    keyword_uses "noise_model" tr =
      [ (Call execute [circuit; simulator]
           [("noise_model", noise_model);
            ("coupling_map", coupling_map);
            ("basis_gates", basis_gates)], Reply job_noise);
        (Call QuantumInstance []
           [("backend", simulator); ("noise_model", noise_model)],
         Reply quantum_instance) ].

(** Aqua logging is set once, to [logging.DEBUG], after both executions of
    the toy circuit and before the driver and the VQE run. *)
Definition logging_before_chemistry (tr : trace) : Prop :=
  exists DEBUG configured driver molecule algorithm quantum_instance result,
    attr_reads "DEBUG" tr = [ (GetAttr logging "DEBUG", Reply DEBUG) ] /\
    calls_of set_aqua_logging tr =
      [ (Call set_aqua_logging [DEBUG] [], Reply configured) ] /\
    select (fun o => match stage_of o with Some Chemistry => true | _ => false end)
           (until (call_is set_aqua_logging) tr) =
      [ (GetAttr logging "DEBUG", Reply DEBUG) ] /\
    calls_of execute (after (call_is set_aqua_logging) tr) = [] /\
    method_calls "run" (after (call_is set_aqua_logging) tr) =
      [ (CallMethod driver "run" [] [], Reply molecule);
        (CallMethod algorithm "run" [quantum_instance] [], Reply result) ].

(** ** Stages and imports *)

Definition is_import (o : op) : bool :=
  match o with
  | Import _ | ImportFrom _ _ => true
  | _ => false
  end.

Definition stage_is (s : stage) (o : op) : bool :=
  match stage_of o with
  | Some s' => stage_eqb s s'
  | None => false
  end.

(** The part of a log after the last operation satisfying [p]. *)
Definition since_last (p : op -> bool) (tr : trace) : trace :=
  rev (until p (rev tr)).

(** The packages the first four cells install, by the name they are
    imported under. *)
Definition installed_packages : list string :=
  ["qiskit"; "qiskit_aqua"; "qiskit_chemistry"; "pyscf"].

(** The stages read with every import of an installed package counted as
    setup work, as "install/import the SDK and chemistry packages" words
    stage (1). *)
Definition stated_stage_of (o : op) : option stage :=
  match o with
  | Import m | ImportFrom m _ =>
      if existsb (String.eqb (package m)) installed_packages then Some Setup else None
  | _ => stage_of o
  end.

Fixpoint stated_stages (tr : trace) : list stage :=
  match tr with
  | [] => []
  | ev :: tr' =>
      match stated_stage_of (fst ev) with
      | Some st => st :: stated_stages tr'
      | None => stated_stages tr'
      end
  end.

Definition in_stated_order (tr : trace) : Prop :=
  exists later, squash (stated_stages tr) ++ later = all_stages.

(** The import statements of the first four stages: the SDK, and the noise
    module once more before the noise model is built. *)
Definition sdk_imports : list op :=
  [ ImportFrom "qiskit" ["Aer"; "IBMQ"; "execute"];
    ImportFrom "qiskit.providers.aer" ["noise"];
    ImportFrom "qiskit" ["QuantumCircuit"; "QuantumRegister"; "ClassicalRegister"];
    ImportFrom "qiskit.tools.monitor" ["job_monitor"];
    ImportFrom "qiskit.providers.aer" ["noise"] ].

(** The import statements of the chemistry cells. *)
Definition workflow_imports : list op :=
  [ Import "logging";
    ImportFrom "qiskit_aqua._logging"
      ["set_logging_config"; "build_logging_config"; "set_aqua_logging"];
    ImportFrom "collections" ["OrderedDict"];
    ImportFrom "qiskit_chemistry" ["FermionicOperator"];
    ImportFrom "qiskit_chemistry.drivers" ["PySCFDriver"; "UnitsType"];
    ImportFrom "qiskit_aqua.components.optimizers" ["SPSA"];
    ImportFrom "qiskit_chemistry.aqua_extensions.components.initial_states"
      ["HartreeFock"];
    ImportFrom "qiskit_aqua.components.variational_forms" ["RYRZ"];
    ImportFrom "qiskit_aqua.algorithms" ["VQE"];
    ImportFrom "qiskit_aqua" ["QuantumInstance"] ].

(** The operations that do what the stages are named after: authenticate
    and fetch, build the noise model, construct and run the circuit, run
    the driver and VQE. *)
Definition milestone (o : op) : bool :=
  existsb (fun f => call_is f o) [QuantumCircuit; execute; PySCFDriver; VQE] ||
  existsb (fun m => method_is m o)
    ["load_accounts"; "get_backend"; "properties"; "basic_device_noise_model"; "run"].

(** What the stages of a completed run do, and where its imports are. *)
Definition stage_work (tr : trace) : Prop :=
  exists accounts device properties noise_device noise_model qr cr circuit
         simulator job coupling_map basis_gates job_noise ANGSTROM driver
         molecule qubitOp var_form optimizer algorithm quantum_instance result,
    select milestone tr =
      [ (CallMethod IBMQ "load_accounts" [] [], Reply accounts);
        (CallMethod IBMQ "get_backend" [VStr "ibmq_poughkeepsie"] [], Reply device);
        (CallMethod device "properties" [] [], Reply properties);
        (CallMethod noise_device "basic_device_noise_model" [properties] [],
         Reply noise_model);
        (Call QuantumCircuit [qr; cr] [], Reply circuit);
        (CallMethod Aer "get_backend" [VStr "qasm_simulator"] [], Reply simulator);
        (Call execute [circuit; simulator] [], Reply job);
        (Call execute [circuit; simulator]
           [("noise_model", noise_model);
            ("coupling_map", coupling_map);
            ("basis_gates", basis_gates)], Reply job_noise);
        (Call PySCFDriver []
           [("atom", VStr "H .0 .0 .0; H .0 .0 0.735");
            ("unit", ANGSTROM);
            ("charge", VInt 0);
            ("spin", VInt 0);
            ("basis", VStr "sto3g")], Reply driver);
        (CallMethod driver "run" [] [], Reply molecule);
        (Call VQE [qubitOp; var_form; optimizer] [], Reply algorithm);
        (CallMethod algorithm "run" [quantum_instance] [], Reply result) ] /\
    stages (select milestone tr) =
      [ FetchCalibration; FetchCalibration; FetchCalibration;
        BuildNoiseModel;
        ToyCircuit; ToyCircuit; ToyCircuit; ToyCircuit;
        Chemistry; Chemistry; Chemistry; Chemistry ] /\
    map fst (select is_import tr) = sdk_imports ++ workflow_imports /\
    map fst (select is_import (until (stage_is ToyCircuit) tr)) = sdk_imports /\
    map fst (select is_import (since_last (stage_is ToyCircuit) tr)) = workflow_imports.

(** ** Where the calibration data goes *)

Definition is_object (x : pyval) : Prop := exists id, x = VObj id.

(** [x] is replied by operation [o] and by no other operation of the log:
    the library handed that object out once. *)
Definition replied_only_by (x : pyval) (o : op) (tr : trace) : Prop :=
  forall o', In (o', Reply x) tr -> o' = o.

(** [use] is the only entry of the log that has [x] among its operands. *)
Definition only_operand_of (x : pyval) (use : event) (tr : trace) : Prop :=
  forall ev, In ev tr -> In x (operands (fst ev)) -> ev = use.

(** The same, read off a script: along every path on which [x] is replied
    by [producer] operations only, [x] is an operand of [consumer]
    operations only. *)
Fixpoint sole_use (x : pyval) (producer consumer : op -> bool) (s : script) : Prop :=
  match s with
  | Ret _ => True
  | Do o k =>
      (In x (operands o) -> consumer o = true) /\
      forall v, (v = x -> producer o = true) -> sole_use x producer consumer (k v)
  | Raise _ => True
  | TryExcept _ _ _ => False
  end.

(** In the log, an object replied by [producer] operations only is an
    operand of [consumer] operations only. *)
Definition confined (producer consumer : op -> bool) (tr : trace) : Prop :=
  forall x, is_object x ->
    (forall o, In (o, Reply x) tr -> producer o = true) ->
    forall ev, In ev tr -> In x (operands (fst ev)) -> consumer (fst ev) = true.

(** All that is done with the device: its properties go, as fetched, to
    the one noise-model builder; the coupling map of its configuration
    goes, as read, to the noisy execution.  When the properties (the
    coupling map) are an object that no other operation replied, they are
    an operand of that one call and of nothing else: the notebook reads
    nothing off them, calls nothing on them and passes them nowhere
    else. *)
Definition noise_model_from_calibration (tr : trace) : Prop :=
  exists accounts backends device properties configuration coupling_map
         noise_device noise_model circuit simulator basis_gates job_noise,
    select calibration_work tr =
      [ (CallMethod IBMQ "load_accounts" [] [], Reply accounts);
        (CallMethod IBMQ "backends" [] [], Reply backends);
        (CallMethod IBMQ "get_backend" [VStr "ibmq_poughkeepsie"] [], Reply device);
        (CallMethod device "properties" [] [], Reply properties);
        (CallMethod device "configuration" [] [], Reply configuration);
        (GetAttr configuration "coupling_map", Reply coupling_map);
        (GetAttr noise "device", Reply noise_device);
        (CallMethod noise_device "basic_device_noise_model" [properties] [],
         Reply noise_model) ] /\
    method_calls "basic_device_noise_model" tr =
      [ (CallMethod noise_device "basic_device_noise_model" [properties] [],
         Reply noise_model) ] /\
    keyword_uses "coupling_map" tr =
      [ (Call execute [circuit; simulator]
           [("noise_model", noise_model);
            ("coupling_map", coupling_map);
            ("basis_gates", basis_gates)], Reply job_noise) ] /\
    (is_object properties ->
     replied_only_by properties (CallMethod device "properties" [] []) tr ->
     only_operand_of properties
       (CallMethod noise_device "basic_device_noise_model" [properties] [],
        Reply noise_model) tr) /\
    (is_object coupling_map ->
     replied_only_by coupling_map (GetAttr configuration "coupling_map") tr ->
     only_operand_of coupling_map
       (Call execute [circuit; simulator]
          [("noise_model", noise_model);
           ("coupling_map", coupling_map);
           ("basis_gates", basis_gates)], Reply job_noise) tr).

(** ** The shape of a run

    What an operation is, leaving out the values it is applied to: the
    command of a shell escape, the names of an import, the function or
    method called with the number of its arguments and the names of its
    keywords, the attribute read.  A script that looked at a reply to
    decide what to do next (a check of an input, a retry) would perform
    operations of different shapes for different replies. *)







(** ** The circuit a run has built *)

(** The size the quantum register is created with. *)
Definition register_size (tr : trace) : option Z :=
  match calls_of QuantumRegister tr with
  | [(Call _ [VInt n] [], _)] => Some n
  | _ => None
  end.

(** The method calls that add an instruction to a circuit. *)
Definition is_gate_call (o : op) : bool :=
  method_is "h" o || method_is "cx" o || method_is "barrier" o || method_is "measure" o.

(** The gates a log applies, read in order: a subscript with a literal
    index names a qubit for the next gate call; [draw], [get_backend] and
    the display of a value add no gate; any other operation is not part of
    a circuit construction and the log is refused. *)
Fixpoint gates_of (pending : list Z) (log : trace) : option (list gate) :=
  match log with
  | [] => match pending with [] => Some [] | _ => None end
  | (o, _) :: log' =>
      match o with
      | GetItem _ (VInt q) => gates_of (pending ++ [q]) log'
      | CallMethod _ m args _ =>
          if (m =? "h")%string then
            match pending, args with
            | [q], [_] => option_map (cons (H q)) (gates_of [] log')
            | _, _ => None
            end
          else if (m =? "cx")%string then
            match pending, args with
            | [c; t], [_; _] => option_map (cons (CX c t)) (gates_of [] log')
            | _, _ => None
            end
          else if (m =? "barrier")%string then
            match pending, args with
            | [], [] => option_map (cons Barrier) (gates_of [] log')
            | _, _ => None
            end
          else if (m =? "measure")%string then
            match pending, args with
            | [], [_; _] => option_map (cons MeasureAll) (gates_of [] log')
            | _, _ => None
            end
          else if ((m =? "draw") || (m =? "get_backend"))%string then
            match pending with
            | [] => gates_of [] log'
            | _ => None
            end
          else None
      | Display _ =>
          match pending with
          | [] => gates_of [] log'
          | _ => None
          end
      | _ => None
      end
  end.

(** The circuit as it stands when it is first executed. *)
Definition built_circuit (tr : trace) : option (list gate) :=
  gates_of [] (circuit_log tr).

(** The basis states with non-zero probability at the end of a circuit
    whose only measurement is a final measurement of every qubit. *)
Definition outcomes (n : Z) (gates : list gate) : option (list Z) :=
  if ends_with_measurement gates then
    let st := statevector n gates in
    Some (filter (fun x => negb (amp st x =? 0)) (basis n))
  else None.

(** The counts dictionary of a list of shots: distinct keys, each the
    bitstring of an outcome that occurred, with the number of shots that
    gave it. *)
Definition tally (n : Z) (samples : list Z) (items : list (string * pyval)) : Prop :=
  NoDup (map fst items) /\
  (forall key value, In (key, value) items -> exists c, value = VInt c /\ 0 < c) /\
  forall key,
    count_of key items
    = Z.of_nat (count_occ string_dec (map (bitstring n) samples) key).

(** A noiseless execution, as the notebook describes the [qasm_simulator]
    without a noise model: each shot is drawn from the distribution of the
    final statevector, so it is an outcome of non-zero probability, and the
    counts are the tally of the shots. *)
Definition noiseless_execution (n : Z) (gates : list gate) (samples : list Z)
    (items : list (string * pyval)) : Prop :=
  exists possible, outcomes n gates = Some possible /\
    Forall (fun x => In x possible) samples /\
    tally n samples items.

(** The noiseless execution of a run is ideal: [items] is the tally of the
    shots [samples], drawn from the circuit the log has built by the time
    it is first executed, on a register of the size the log gives it. *)
Definition ideal_noiseless_run (tr : trace) (samples : list Z)
    (items : list (string * pyval)) : Prop :=
  exists n gates,
    register_size tr = Some n /\
    built_circuit tr = Some gates /\
    noiseless_execution n gates samples items.

(** The circuit is built over registers of size 3 by exactly the gate
    calls of [toy_circuit]; between the last of them and the first
    execution it is only drawn and the simulator obtained; no gate is added
    to it anywhere else in the run; it is executed, without keyword
    arguments, on the simulator; the dictionary [items] is what that
    execution's [get_counts()] replied and what the cell displays. *)
Definition ghz_built_and_run (tr : trace) (items : list (string * pyval)) : Prop :=
  exists qr cr circuit drawing shown_drawing simulator job result shown,
    In (Call QuantumRegister [VInt 3] [], Reply qr) tr /\
    In (Call ClassicalRegister [VInt 3] [], Reply cr) tr /\
    In (Call QuantumCircuit [qr; cr] [], Reply circuit) tr /\
    spells qr cr circuit (until (method_is "draw") (circuit_log tr)) toy_circuit /\
    method_calls "draw" tr = [ (CallMethod circuit "draw" [] [], Reply drawing) ] /\
    after (method_is "draw") (circuit_log tr) =
      [ (Display drawing, Reply shown_drawing);
        (CallMethod Aer "get_backend" [VStr "qasm_simulator"] [], Reply simulator) ] /\
    select is_gate_call tr = select is_gate_call (circuit_log tr) /\
    In (Call execute [circuit; simulator] [], Reply job) tr /\
    In (CallMethod job "result" [] [], Reply result) tr /\
    In (CallMethod result "get_counts" [] [], Reply (VDict items)) tr /\
    In (Display (VDict items), Reply shown) tr.

(** * Results *)

(** ** Scripts in general *)

Lemma on_return_sound (s : script) :
  forall (Q : trace -> pyval -> Prop), on_return Q s ->
  forall (World : Type) (respond : op -> World -> reply * World) w v tr w',
    run respond s w = (Returned v, tr, w') -> Q tr v.
Proof.
  induction s as [v0 | o k IH | e | body _ handler _ k _]; simpl;
    intros Q HQ World respond w v tr w' Hrun.
  - inversion Hrun; subst; exact HQ.
  - destruct (respond o w) as [[v1 | e] w1]; [| discriminate].
    destruct (run respond (k v1) w1) as [[out tr1] w2] eqn:E.
    inversion Hrun; subst.
    exact (IH v1 _ (HQ v1) World respond w1 v tr1 w' E).
  - discriminate.
  - contradiction.
Qed.

Lemma on_every_run_sound (s : script) :
  forall (P : trace -> outcome -> Prop), on_every_run P s ->
  forall (World : Type) (respond : op -> World -> reply * World) w out tr w',
    run respond s w = (out, tr, w') -> P tr out.
Proof.
  induction s as [v0 | o k IH | e | body _ handler _ k _]; simpl;
    intros P HP World respond w out tr w' Hrun.
  - inversion Hrun; subst; exact HP.
  - destruct HP as [Hthrow Hreply].
    destruct (respond o w) as [[v1 | e] w1].
    + destruct (run respond (k v1) w1) as [[out1 tr1] w2] eqn:E.
      inversion Hrun; subst.
      exact (IH v1 _ (Hreply v1) World respond w1 out tr1 w' E).
    + inversion Hrun; subst. apply Hthrow.
  - inversion Hrun; subst; exact HP.
  - contradiction.
Qed.

Lemma on_every_run_do (P : trace -> outcome -> Prop) o k :
  (forall e, P [(o, Throws e)] (Raised e)) ->
  (forall v, on_every_run (fun tr => P ((o, Reply v) :: tr)) (k v)) ->
  on_every_run P (Do o k).
Proof. intros Hthrow Hreply; split; assumption. Qed.

Lemma on_every_run_ret (P : trace -> outcome -> Prop) v :
  P [] (Returned v) -> on_every_run P (Ret v).
Proof. intros HP; exact HP. Qed.

Lemma on_return_py_add Q l r k :
  (forall a b, l = VInt a -> r = VInt b -> on_return Q (k (VInt (a + b)))) ->
  ((forall a b, l = VInt a -> r = VInt b -> False) ->
   on_return Q (Do (BinOp Add l r) k)) ->
  on_return Q (py_add l r k).
Proof.
  intros Hint Hop.
  destruct l, r; simpl; try (apply Hop; intros; discriminate).
  apply Hint; reflexivity.
Qed.

Lemma on_return_py_mult Q l r k :
  (forall a b, l = VInt a -> r = VInt b -> on_return Q (k (VInt (a * b)))) ->
  ((forall a b, l = VInt a -> r = VInt b -> False) ->
   on_return Q (Do (BinOp Mult l r) k)) ->
  on_return Q (py_mult l r k).
Proof.
  intros Hint Hop.
  destruct l, r; simpl; try (apply Hop; intros; discriminate).
  apply Hint; reflexivity.
Qed.

Lemma on_every_run_py_add P l r k :
  (forall a b, on_every_run P (k (VInt (a + b)))) ->
  on_every_run P (Do (BinOp Add l r) k) ->
  on_every_run P (py_add l r k).
Proof. intros Hint Hop; destruct l, r; simpl; auto. Qed.

Lemma on_every_run_py_mult P l r k :
  (forall a b, on_every_run P (k (VInt (a * b)))) ->
  on_every_run P (Do (BinOp Mult l r) k) ->
  on_every_run P (py_mult l r k).
Proof. intros Hint Hop; destruct l, r; simpl; auto. Qed.

Lemma linear_py_add l r k : (forall v, linear (k v)) -> linear (py_add l r k).
Proof. intros Hk; destruct l, r; simpl; auto. Qed.

Lemma linear_py_mult l r k : (forall v, linear (k v)) -> linear (py_mult l r k).
Proof. intros Hk; destruct l, r; simpl; auto. Qed.

Lemma Forall_forallb {A : Type} (p : A -> bool) (l : list A) :
  forallb p l = true -> Forall (fun x => p x = true) l.
Proof. intros Hl; apply Forall_forall; apply forallb_forall; exact Hl. Qed.

Lemma Forall_forallb_neg {A : Type} (p : A -> bool) (l : list A) :
  forallb (fun x => negb (p x)) l = true -> Forall (fun x => p x = false) l.
Proof.
  intros Hl; apply Forall_forall; intros x Hx.
  apply negb_true_iff. revert x Hx. apply forallb_forall. exact Hl.
Qed.


(** *** Provenance along a script *)

Lemma from_outside_weaken imports R1 R2 x :
  (forall y, In y R1 -> In y R2 \/ scalar y = true) ->
  from_outside imports R1 x -> from_outside imports R2 x.
Proof.
  intros Hsub [Hin | Hrest]; [| right; exact Hrest].
  destruct (Hsub x Hin) as [Hin2 | Hsc]; [left; exact Hin2 | right; left; exact Hsc].
Qed.

(** Scalars among the received values add nothing: a scalar operand is
    accepted anyway. *)
Lemma well_sourced_weaken (s : script) :
  forall imports R1 R2,
    (forall y, In y R1 -> In y R2 \/ scalar y = true) ->
    well_sourced imports R1 s -> well_sourced imports R2 s.
Proof.
  induction s as [v0 | o k IH | e | body _ handler _ k _]; simpl;
    intros imports R1 R2 Hsub Hs; auto.
  destruct Hs as [Hops Hk]. split.
  - eapply Forall_impl; [| exact Hops].
    intros x; apply from_outside_weaken; exact Hsub.
  - intros v. apply (IH v _ (v :: R1)); [| apply Hk].
    intros y [-> | Hy]; [left; left; reflexivity |].
    destruct (Hsub y Hy) as [Hin | Hsc]; [left; right; exact Hin | right; exact Hsc].
Qed.

Lemma well_sourced_do imports received o k :
  Forall (from_outside imports received) (operands o) ->
  (forall v, well_sourced (note_import o imports) (v :: received) (k v)) ->
  well_sourced imports received (Do o k).
Proof. intros Hops Hk; split; assumption. Qed.

Lemma well_sourced_binop imports received o l r k :
  from_outside imports received l ->
  from_outside imports received r ->
  (forall v, well_sourced imports (v :: received) (k v)) ->
  well_sourced imports received (Do (BinOp o l r) k).
Proof.
  intros Hl Hr Hk; simpl. split; [| exact Hk].
  constructor; [exact Hl | constructor; [exact Hr | constructor]].
Qed.

Lemma well_sourced_scalar imports received x k :
  scalar x = true ->
  (forall v, well_sourced imports (v :: received) (k v)) ->
  well_sourced imports received (k x).
Proof.
  intros Hx Hk. apply (well_sourced_weaken _ imports (x :: received)); [| apply Hk].
  intros y [<- | Hy]; [right; exact Hx | left; exact Hy].
Qed.

Lemma well_sourced_py_add imports received l r k :
  from_outside imports received l ->
  from_outside imports received r ->
  (forall v, well_sourced imports (v :: received) (k v)) ->
  well_sourced imports received (py_add l r k).
Proof.
  intros Hl Hr Hk.
  destruct l as [| a | | | | | |], r as [| b | | | | | |];
    try (apply well_sourced_binop; assumption).
  apply (well_sourced_scalar imports received (VInt (a + b)) k); [reflexivity | exact Hk].
Qed.

Lemma well_sourced_py_mult imports received l r k :
  from_outside imports received l ->
  from_outside imports received r ->
  (forall v, well_sourced imports (v :: received) (k v)) ->
  well_sourced imports received (py_mult l r k).
Proof.
  intros Hl Hr Hk.
  destruct l as [| a | | | | | |], r as [| b | | | | | |];
    try (apply well_sourced_binop; assumption).
  apply (well_sourced_scalar imports received (VInt (a * b)) k); [reflexivity | exact Hk].
Qed.

Lemma well_sourced_sound (s : script) :
  forall imports received, well_sourced imports received s ->
  forall (World : Type) (respond : op -> World -> reply * World) w out tr w',
    run respond s w = (out, tr, w') -> sourced imports received tr.
Proof.
  induction s as [v0 | o k IH | e | body _ handler _ k _]; simpl;
    intros imports received Hs World respond w out tr w' Hrun.
  - inversion Hrun; subst; exact I.
  - destruct Hs as [Hops Hk].
    destruct (respond o w) as [[v1 | e1] w1].
    + destruct (run respond (k v1) w1) as [[out1 tr1] w2] eqn:E.
      inversion Hrun; subst. simpl. split; [exact Hops |].
      exact (IH v1 _ _ (Hk v1) World respond w1 out tr1 w' E).
    + inversion Hrun; subst. simpl. split; [exact Hops | exact I].
  - inversion Hrun; subst; exact I.
  - contradiction.
Qed.

(** *** Counts *)

Lemma lookup_absent {A : Type} key (table : list (string * A)) :
  ~ In key (map fst table) -> lookup key table = None.
Proof.
  induction table as [| [k a] table IH]; simpl; intros Hnot; [reflexivity |].
  destruct (String.eqb_spec k key) as [-> | Hne].
  - exfalso; apply Hnot; left; reflexivity.
  - apply IH. intros Hin; apply Hnot; right; exact Hin.
Qed.

Lemma count_of_absent key items :
  ~ In key (map fst items) -> count_of key items = 0.
Proof. intros Hnot; unfold count_of; rewrite lookup_absent by exact Hnot; reflexivity. Qed.

Lemma count_of_head key c items : count_of key ((key, VInt c) :: items) = c.
Proof. unfold count_of; simpl; rewrite String.eqb_refl; reflexivity. Qed.

Lemma count_of_other key k value items :
  k <> key -> count_of key ((k, value) :: items) = count_of key items.
Proof.
  intros Hne; unfold count_of; simpl.
  destruct (String.eqb_spec k key) as [Heq | _]; [contradiction | reflexivity].
Qed.

(** *** Walking the notebook *)

Ltac ints Hl Hr :=
  try (injection Hl as Hl); try (injection Hr as Hr); subst.

Ltac walk_returns :=
  repeat first
    [ progress cbn [on_return]
    | match goal with
      | |- forall _ : pyval, _ => intro
      | |- on_return _ (py_add _ _ _) =>
          apply on_return_py_add; [intros ? ? Hl Hr; ints Hl Hr | intros ?]
      | |- on_return _ (py_mult _ _ _) =>
          apply on_return_py_mult; [intros ? ? Hl Hr; ints Hl Hr | intros ?]
      end ];
  cbv beta.

Ltac walk_every_run leaf :=
  repeat first
    [ apply on_every_run_do; [intro; cbv beta; leaf | intro; cbv beta]
    | apply on_every_run_py_add; [intros ? ? |]
    | apply on_every_run_py_mult; [intros ? ? |]
    | apply on_every_run_ret; cbv beta; leaf ].

Ltac walk_linear :=
  repeat first
    [ progress cbn [linear]
    | match goal with
      | |- forall _ : pyval, _ => intro
      | |- linear (py_add _ _ _) => apply linear_py_add
      | |- linear (py_mult _ _ _) => apply linear_py_mult
      end ];
  try exact I.

Ltac find_event := simpl; repeat first [ left; reflexivity | right ].

Ltac settle := repeat eexists; repeat split; first [ reflexivity | find_event ].

Ltac source :=
  first [ right; left; reflexivity
        | right; right; reflexivity
        | left; find_event ].

Ltac sources :=
  cbv [operands app map snd];
  repeat match goal with
         | |- Forall _ [] => constructor
         | |- Forall _ (_ :: _) => constructor; [source |]
         end.

Ltac walk_sources :=
  repeat first
    [ apply well_sourced_do; [sources | intro; cbv [note_import]]
    | apply well_sourced_py_add; [source | source | intro]
    | apply well_sourced_py_mult; [source | source | intro]
    | exact I ].

Ltac staged_leaf :=
  unfold staged; split; [eexists; vm_compute; reflexivity |];
  split; [apply Forall_forallb; vm_compute; reflexivity |];
  split; [apply Forall_forallb_neg; vm_compute; reflexivity |];
  first [exact I | split; vm_compute; reflexivity].

Ltac of_completed_runs :=
  let World := fresh "World" in
  let respond := fresh "respond" in
  let w := fresh "w" in
  let v := fresh "v" in
  let tr := fresh "tr" in
  let w' := fresh "w'" in
  let Hrun := fresh "Hrun" in
  intros World respond w v tr w' Hrun;
  revert World respond w v tr w' Hrun;
  apply on_return_sound; unfold notebook; walk_returns.

(** ** The notebook *)

Lemma notebook_linear : linear notebook.
Proof. unfold notebook. walk_linear. Qed.

Lemma notebook_well_sourced : well_sourced [] [] notebook.
Proof. unfold notebook. walk_sources. Qed.

(** C1, as stated, fails.  Stage (1) is worded "install/import the SDK and
    chemistry packages"; with every import of an installed package counted
    as work of that stage, a completed run goes back to stage (1) after
    stage (2), where the noise module is imported once more before the
    noise model is built, and after stage (4): the Aqua and chemistry
    imports sit in the chemistry cells, below the toy circuit.  So it is
    not the case that no later stage precedes an earlier one. *)
Lemma chemistry_imports_follow_the_toy_circuit :
  run session notebook recorded_session = (Returned VNone, recorded_log, recorded_end) /\
  squash (stated_stages recorded_log) =
    [ Setup; FetchCalibration; Setup; BuildNoiseModel; ToyCircuit;
      Setup; Chemistry; Setup; Chemistry; Setup; Chemistry; Setup; Chemistry;
      Setup; Chemistry; Setup; Chemistry; Setup; Chemistry ] /\
  ~ in_stated_order recorded_log /\
  ~ (forall (World : Type) (respond : op -> World -> reply * World) w v tr w',
       run respond notebook w = (Returned v, tr, w') -> in_stated_order tr).
Proof.
  assert (Hrun : run session notebook recorded_session
                 = (Returned VNone, recorded_log, recorded_end))
    by (vm_compute; reflexivity).
  assert (Hnot : ~ in_stated_order recorded_log).
  { intros [later Hlater]. vm_compute in Hlater. discriminate Hlater. }
  split; [exact Hrun |]. split; [vm_compute; reflexivity |].
  split; [exact Hnot |].
  intros Hall. exact (Hnot (Hall _ _ _ _ _ _ Hrun)).
Qed.

(** C1, amended: the notebook is one chain of external operations,
    without branches, handlers or concurrency imports.  In every run,
    completed or aborted, the stages entered are an initial segment of
    setup, calibration fetch, noise model, toy circuit, chemistry, import
    statements apart.  A completed run starts with the four installs and
    the SDK imports; it authenticates, obtains the device and fetches its
    properties; builds the noise model from those properties; constructs
    the circuit and executes it twice on the simulator; runs the driver and
    runs VQE, in this order.  The SDK imports, with the noise module
    imported a second time, come before the toy circuit; the logging, Aqua
    and chemistry imports all come after it, in the chemistry cells. *)
Theorem notebook_is_a_linear_script_of_five_stages :
  forall (World : Type) (respond : op -> World -> reply * World) w out tr w',
    run respond notebook w = (out, tr, w') ->
    linear notebook /\ staged tr out /\
    match out with
    | Returned _ => stage_work tr
    | Raised _ => True
    end.
Proof.
  intros World respond w out tr w' Hrun.
  split; [exact notebook_linear |]. split.
  - revert World respond w out tr w' Hrun.
    apply on_every_run_sound. unfold notebook.
    walk_every_run staged_leaf.
  - destruct out as [v | e]; [| exact I].
    revert World respond w v tr w' Hrun. of_completed_runs. all: settle.
Qed.

Lemma notebook_is_a_linear_script_of_five_stages_witness :
  run session notebook recorded_session = (Returned VNone, recorded_log, recorded_end) /\
  linear notebook /\ staged recorded_log (Returned VNone) /\ stage_work recorded_log.
Proof.
  split; [vm_compute; reflexivity |].
  apply (notebook_is_a_linear_script_of_five_stages
           world session recorded_session (Returned VNone) recorded_log recorded_end).
  vm_compute; reflexivity.
Defined.

(** C2: the notebook constructs exactly one circuit, over one register of
    3 qubits and one of 3 classical bits, and executes that same circuit
    on the [qasm_simulator] backend exactly twice: first with no noise
    model (no keyword argument at all), then with the noise model built
    from the device supplied as [noise_model]. *)
Theorem toy_circuit_built_once_run_twice :
  forall (World : Type) (respond : op -> World -> reply * World) w v tr w',
    run respond notebook w = (Returned v, tr, w') ->
    one_circuit_run_twice tr.
Proof. of_completed_runs. all: settle. Qed.

Lemma toy_circuit_built_once_run_twice_witness :
  run session notebook recorded_session = (Returned VNone, recorded_log, recorded_end) /\
  one_circuit_run_twice recorded_log.
Proof.
  split; [vm_compute; reflexivity |].
  apply (toy_circuit_built_once_run_twice
           world session recorded_session VNone recorded_log recorded_end).
  vm_compute; reflexivity.
Defined.

(** *** Uses of a value along a script *)

Lemma sole_use_sound x producer consumer (s : script) :
  sole_use x producer consumer s ->
  forall (World : Type) (respond : op -> World -> reply * World) w out tr w',
    run respond s w = (out, tr, w') ->
    (forall o, In (o, Reply x) tr -> producer o = true) ->
    forall ev, In ev tr -> In x (operands (fst ev)) -> consumer (fst ev) = true.
Proof.
  induction s as [v0 | o k IH | e | body _ handler _ k _]; simpl;
    intros Hs World respond w out tr w' Hrun Hprod ev Hin Huse; try contradiction.
  - inversion Hrun; subst. destruct Hin.
  - destruct Hs as [Ho Hk].
    destruct (respond o w) as [[v1 | e1] w1].
    + destruct (run respond (k v1) w1) as [[out1 tr1] w2] eqn:E.
      inversion Hrun; subst.
      destruct Hin as [<- | Hin]; [exact (Ho Huse) |].
      apply (IH v1) with (World := World) (respond := respond) (w := w1)
                         (out := out) (tr := tr1) (w' := w') (ev := ev); auto.
      * apply Hk. intros ->. apply Hprod. left; reflexivity.
      * intros o' Ho'. apply Hprod. right; exact Ho'.
    + inversion Hrun; subst. destruct Hin as [<- | []]. exact (Ho Huse).
  - inversion Hrun; subst. destruct Hin.
Qed.

Lemma sole_use_do x producer consumer o k :
  (In x (operands o) -> consumer o = true) ->
  (forall v, (v = x -> producer o = true) -> sole_use x producer consumer (k v)) ->
  sole_use x producer consumer (Do o k).
Proof. intros Ho Hk; split; assumption. Qed.

Lemma sole_use_py_add x producer consumer l r k :
  is_object x -> l <> x -> r <> x ->
  producer (BinOp Add l r) = false ->
  (forall v, (v = x -> false = true) -> sole_use x producer consumer (k v)) ->
  sole_use x producer consumer (py_add l r k).
Proof.
  intros [id ->] Hl Hr Hp Hk.
  assert (Hop : sole_use (VObj id) producer consumer (Do (BinOp Add l r) k)).
  { split.
    - intros [Heq | [Heq | []]]; [elim Hl | elim Hr]; exact Heq.
    - intros v Hv. apply Hk. intros Heq. rewrite <- Hp. exact (Hv Heq). }
  destruct l, r; try exact Hop.
  apply Hk. intros Heq; discriminate Heq.
Qed.

Lemma sole_use_py_mult x producer consumer l r k :
  is_object x -> l <> x -> r <> x ->
  producer (BinOp Mult l r) = false ->
  (forall v, (v = x -> false = true) -> sole_use x producer consumer (k v)) ->
  sole_use x producer consumer (py_mult l r k).
Proof.
  intros [id ->] Hl Hr Hp Hk.
  assert (Hop : sole_use (VObj id) producer consumer (Do (BinOp Mult l r) k)).
  { split.
    - intros [Heq | [Heq | []]]; [elim Hl | elim Hr]; exact Heq.
    - intros v Hv. apply Hk. intros Heq. rewrite <- Hp. exact (Hv Heq). }
  destruct l, r; try exact Hop.
  apply Hk. intros Heq; discriminate Heq.
Qed.

(** An equation [v = VObj id] refuted by what is known of [v]. *)
Ltac not_that_object Heq :=
  first
    [ discriminate Heq
    | match type of Heq with
      | ?v = _ =>
          match goal with
          | Hv : v = _ -> _ |- _ => discriminate (Hv Heq)
          end
      end ].

Ltac operand_check :=
  let Huse := fresh "Huse" in
  intros Huse;
  first
    [ reflexivity
    | exfalso; cbv [operands app map snd In] in Huse;
      repeat (let Heq := fresh "Heq" in
              destruct Huse as [Heq | Huse]; [not_that_object Heq |]);
      exact Huse ].

Ltac differs :=
  let Heq := fresh "Heq" in intros Heq; not_that_object Heq.

Ltac walk_uses :=
  repeat first
    [ apply sole_use_do; [operand_check | intros ? ?]
    | apply sole_use_py_add;
        [eexists; reflexivity | differs | differs | reflexivity | intros ? ?]
    | apply sole_use_py_mult;
        [eexists; reflexivity | differs | differs | reflexivity | intros ? ?]
    | exact I ].

Lemma properties_go_to_the_builder_only id :
  sole_use (VObj id) (method_is "properties") (method_is "basic_device_noise_model")
           notebook.
Proof. unfold notebook. walk_uses. Qed.

Lemma coupling_map_goes_to_the_execution_only id :
  sole_use (VObj id) (attr_is "coupling_map") (has_keyword "coupling_map") notebook.
Proof. unfold notebook. walk_uses. Qed.

Lemma notebook_confines_calibration_data :
  forall (World : Type) (respond : op -> World -> reply * World) w out tr w',
    run respond notebook w = (out, tr, w') ->
    confined (method_is "properties") (method_is "basic_device_noise_model") tr /\
    confined (attr_is "coupling_map") (has_keyword "coupling_map") tr.
Proof.
  intros World respond w out tr w' Hrun. split; intros x [id ->].
  - exact (sole_use_sound _ _ _ notebook (properties_go_to_the_builder_only id)
             World respond w out tr w' Hrun).
  - exact (sole_use_sound _ _ _ notebook (coupling_map_goes_to_the_execution_only id)
             World respond w out tr w' Hrun).
Qed.

Ltac the_only_use F :=
  let Hobj := fresh "Hobj" in
  let Honly := fresh "Honly" in
  let ev := fresh "ev" in
  let Hin := fresh "Hin" in
  let Huse := fresh "Huse" in
  let Hc := fresh "Hc" in
  let Hsel := fresh "Hsel" in
  intros Hobj Honly ev Hin Huse;
  pose proof (F _ Hobj) as Hc;
  specialize (Hc ltac:(intros o Ho; rewrite (Honly o Ho); reflexivity) ev Hin Huse);
  match type of Hc with
  | ?p _ = true =>
      match type of Hin with
      | In _ ?t =>
          assert (Hsel : In ev (select p t))
            by (apply filter_In; split; [exact Hin | exact Hc])
      end
  end;
  simpl in Hsel; destruct Hsel as [<- | []]; reflexivity.

(** C3: the noise model is the reply of a single call of the vendor
    function [noise.device.basic_device_noise_model], applied to what
    [device.properties()] replied for the device obtained from IBMQ; the
    [coupling_map] of the noisy execution is what was read off that
    device's [configuration()].  The notebook computes nothing on this
    data: the properties object is an operand of that one builder call and
    of no other operation of the run, and the coupling map is an operand of
    the noisy execution and of no other operation. *)
Theorem noise_model_built_from_fetched_calibration :
  forall (World : Type) (respond : op -> World -> reply * World) w v tr w',
    run respond notebook w = (Returned v, tr, w') ->
    noise_model_from_calibration tr.
Proof.
  intros World respond w v tr w' Hrun.
  destruct (notebook_confines_calibration_data World respond w _ tr w' Hrun)
    as [F1 F2].
  revert F1 F2. pattern tr, v. revert World respond w v tr w' Hrun.
  apply on_return_sound. unfold notebook. walk_returns.
  all: intros F1 F2; do 12 eexists.
  all: split; [reflexivity |]; split; [reflexivity |]; split; [reflexivity |].
  all: split; [the_only_use F1 | the_only_use F2].
Qed.

Lemma noise_model_built_from_fetched_calibration_witness :
  run session notebook recorded_session = (Returned VNone, recorded_log, recorded_end) /\
  noise_model_from_calibration recorded_log /\
  (exists device id,
     In (CallMethod device "properties" [] [], Reply (VObj id)) recorded_log /\
     replied_only_by (VObj id) (CallMethod device "properties" [] []) recorded_log) /\
  (exists configuration id,
     In (GetAttr configuration "coupling_map", Reply (VObj id)) recorded_log /\
     replied_only_by (VObj id) (GetAttr configuration "coupling_map") recorded_log).
Proof.
  split; [vm_compute; reflexivity |]. split.
  - apply (noise_model_built_from_fetched_calibration
             world session recorded_session VNone recorded_log recorded_end).
    vm_compute; reflexivity.
  - split.
    + exists (VObj 1), 2%N. split; [vm_compute; tauto |].
      intros o' Hin. unfold recorded_log in Hin. simpl in Hin.
      repeat (destruct Hin as [Heq | Hin];
              [ first [discriminate Heq | injection Heq as <-; reflexivity] |]).
      contradiction.
    + exists (VObj 3), 4%N. split; [vm_compute; tauto |].
      intros o' Hin. unfold recorded_log in Hin. simpl in Hin.
      repeat (destruct Hin as [Heq | Hin];
              [ first [discriminate Heq | injection Heq as <-; reflexivity] |]).
      contradiction.
Defined.

(** C4: the chemistry stage runs the PySCF driver, builds the fermionic
    operator from the molecule's one- and two-body integrals, maps it with
    the parity mapping, reduces it by two qubits, and runs VQE on the
    reduced operator with a QuantumInstance whose [noise_model] is the very
    noise model built from the device earlier. *)
Theorem vqe_runs_on_reduced_operator_with_the_noise_model :
  forall (World : Type) (respond : op -> World -> reply * World) w v tr w',
    run respond notebook w = (Returned v, tr, w') ->
    vqe_on_reduced_operator_with_noise tr.
Proof. of_completed_runs. all: settle. Qed.

Lemma vqe_runs_on_reduced_operator_with_the_noise_model_witness :
  run session notebook recorded_session = (Returned VNone, recorded_log, recorded_end) /\
  vqe_on_reduced_operator_with_noise recorded_log.
Proof.
  split; [vm_compute; reflexivity |].
  apply (vqe_runs_on_reduced_operator_with_the_noise_model
           world session recorded_session VNone recorded_log recorded_end).
  vm_compute; reflexivity.
Defined.

(** *** Shapes along a script *)










(** C6: the notebook defines nothing of its own.  Its script is a chain of
    external operations; every operand it passes is a scalar literal (or
    integer arithmetic on replies), a name bound by an earlier import
    statement, or a value an earlier operation replied with; and the
    circuit, the noise model, the qubit operator, the optimizer, the
    variational form, the initial state and the results are each the reply
    of a library call, handed on unchanged to the next call or to the
    output. *)
Theorem every_object_is_produced_by_a_library_call :
  forall (World : Type) (respond : op -> World -> reply * World) w v tr w',
    run respond notebook w = (Returned v, tr, w') ->
    linear notebook /\ sourced [] [] tr /\ objects_from_library_calls tr.
Proof.
  intros World respond w v tr w' Hrun.
  split; [exact notebook_linear |]. split.
  - exact (well_sourced_sound notebook [] [] notebook_well_sourced
             World respond w (Returned v) tr w' Hrun).
  - revert World respond w v tr w' Hrun. of_completed_runs. all: settle.
Qed.

Lemma every_object_is_produced_by_a_library_call_witness :
  run session notebook recorded_session = (Returned VNone, recorded_log, recorded_end) /\
  linear notebook /\ sourced [] [] recorded_log /\
  objects_from_library_calls recorded_log.
Proof.
  split; [vm_compute; reflexivity |].
  apply (every_object_is_produced_by_a_library_call
           world session recorded_session VNone recorded_log recorded_end).
  vm_compute; reflexivity.
Defined.

(** *** Tallies *)

Lemma count_of_member key c items :
  NoDup (map fst items) -> In (key, VInt c) items -> count_of key items = c.
Proof.
  induction items as [| [k value] items IH]; simpl; intros Hnd Hin; [contradiction |].
  inversion Hnd as [| ? ? Hnot Hnd']; subst.
  destruct Hin as [Heq | Hin].
  - injection Heq as -> ->. apply count_of_head.
  - rewrite count_of_other; [apply IH; assumption |].
    intros ->. apply Hnot.
    change key with (fst (key, VInt c)). apply in_map. exact Hin.
Qed.

Lemma count_occ_two (a b : string) (l : list string) :
  a <> b ->
  Forall (fun s => s = a \/ s = b) l ->
  (count_occ string_dec l a + count_occ string_dec l b)%nat = List.length l.
Proof.
  intros Hab Hall. induction Hall as [| s l Hs _ IH]; [reflexivity |].
  simpl. destruct Hs as [-> | ->].
  - destruct (string_dec a a) as [_ | Hne]; [| contradiction].
    destruct (string_dec a b) as [Heq | _]; [contradiction |].
    simpl. rewrite IH. reflexivity.
  - destruct (string_dec b a) as [Heq | _]; [symmetry in Heq; contradiction |].
    destruct (string_dec b b) as [_ | Hne]; [| contradiction].
    rewrite Nat.add_succ_r, IH. reflexivity.
Qed.

(** Shots drawn from the GHZ distribution are tallied under '000' and
    '111' only, and the two counts account for every shot. *)
Lemma ghz_tally samples items :
  Forall (fun x => In x [0; 7]) samples ->
  tally 3 samples items ->
  (forall key value, In (key, value) items -> key = "000" \/ key = "111") /\
  count_of "000" items + count_of "111" items = Z.of_nat (List.length samples).
Proof.
  intros Hsup [Hnd [Hpos Hcount]].
  assert (Hkeys : Forall (fun s => s = "000" \/ s = "111") (map (bitstring 3) samples)).
  { apply Forall_map. eapply Forall_impl; [| exact Hsup].
    intros x [<- | [<- | []]]; [left | right]; reflexivity. }
  split.
  - intros key value Hin.
    destruct (Hpos key value Hin) as [c [-> Hc]].
    pose proof (count_of_member key c items Hnd Hin) as Hkey.
    rewrite Hcount in Hkey.
    assert (Hocc : In key (map (bitstring 3) samples)).
    { apply (count_occ_In string_dec). lia. }
    rewrite Forall_forall in Hkeys. exact (Hkeys key Hocc).
  - rewrite !Hcount, <- Nat2Z.inj_add.
    rewrite (count_occ_two "000" "111") by (discriminate || exact Hkeys).
    rewrite length_map. reflexivity.
Qed.

Lemma two_outcome_tally (c0 c1 : nat) :
  (0 < c0)%nat -> (0 < c1)%nat ->
  tally 3 (repeat 0 c0 ++ repeat 7 c1)
    [("000", VInt (Z.of_nat c0)); ("111", VInt (Z.of_nat c1))].
Proof.
  intros H0 H1. split; [| split].
  - repeat constructor; simpl; intuition discriminate.
  - intros key value [Heq | [Heq | []]]; injection Heq as <- <-;
      eexists; (split; [reflexivity | lia]).
  - intros key. rewrite map_app, !map_repeat, count_occ_app.
    change (bitstring 3 0) with "000". change (bitstring 3 7) with "111".
    destruct (string_dec "000" key) as [<- | Hne0].
    + rewrite count_of_head, count_occ_repeat_eq by reflexivity.
      rewrite count_occ_repeat_neq by discriminate. lia.
    + rewrite count_of_other by exact Hne0.
      rewrite (count_occ_repeat_neq string_dec (y := "000"))
        by (intros Heq; apply Hne0; symmetry; exact Heq).
      destruct (string_dec "111" key) as [<- | Hne1].
      * rewrite count_of_head, count_occ_repeat_eq by reflexivity. lia.
      * rewrite count_of_other by exact Hne1.
        rewrite count_occ_repeat_neq
          by (intros Heq; apply Hne1; symmetry; exact Heq).
        reflexivity.
Qed.

(** C8: the toy circuit, as it stands when it is executed, is Hadamard on
    qubit 0, CNOT 0->1, CNOT 1->2, a barrier, and a measurement of all
    qubits, on a register of 3 qubits: a GHZ preparation, whose final
    statevector has equal amplitudes on 000 and 111 and zero elsewhere; no
    gate is added to the circuit anywhere else in the run.  Hence, when
    the noiseless execution draws its shots from the distribution of the
    statevector of the circuit the run has built and tallies them, every
    outcome in the displayed counts is '000' or '111', and the two counts
    add up to the number of shots. *)
Theorem toy_circuit_is_ghz_and_noiseless_outcomes_are_000_111 :
  forall (World : Type) (respond : op -> World -> reply * World) w v tr w'
         samples items,
    run respond notebook w = (Returned v, tr, w') ->
    noiseless_counts tr = Some (VDict items) ->
    ideal_noiseless_run tr samples items ->
    ghz_built_and_run tr items /\
    register_size tr = Some 3 /\
    built_circuit tr = Some toy_circuit /\
    toy_circuit = [H 0; CX 0 1; CX 1 2; Barrier; MeasureAll] /\
    statevector 3 toy_circuit = [1; 0; 0; 0; 0; 0; 0; 1] /\
    outcomes 3 toy_circuit = Some [0; 7] /\
    (forall key value, In (key, value) items -> key = "000" \/ key = "111") /\
    count_of "000" items + count_of "111" items = Z.of_nat (List.length samples).
Proof.
  intros World respond w v tr w' samples items Hrun Hcounts Hideal.
  assert (Hbuilt : ghz_built_and_run tr items /\
                   register_size tr = Some 3 /\
                   built_circuit tr = Some toy_circuit).
  { clear Hideal. revert items Hcounts. pattern tr, v.
    revert World respond w v tr w' Hrun.
    apply on_return_sound. unfold notebook.
    walk_returns.
    all: intros items Hcounts; cbv in Hcounts; injection Hcounts as ->.
    all: split; [| split; vm_compute; reflexivity].
    all: do 9 eexists; repeat match goal with |- _ /\ _ => split end.
    all: lazymatch goal with
         | |- spells _ _ _ _ _ =>
             unfold circuit_log;
             cbv [after until call_is method_is same_import fst
                  QuantumCircuit execute String.eqb Ascii.eqb Bool.eqb andb];
             unfold toy_circuit; repeat econstructor
         | |- In _ _ => find_event
         | |- _ => vm_compute; reflexivity
         end. }
  destruct Hbuilt as [Hghz [Hsize Hcircuit]].
  destruct Hideal as [n [gates [Hn [Hgates [possible [Hout [Hsup Htally]]]]]]].
  rewrite Hsize in Hn; injection Hn as <-.
  rewrite Hcircuit in Hgates; injection Hgates as <-.
  assert (Hsupport : outcomes 3 toy_circuit = Some [0; 7]) by (vm_compute; reflexivity).
  rewrite Hsupport in Hout; injection Hout as <-.
  repeat split; try assumption; try (vm_compute; reflexivity);
    apply (ghz_tally samples items Hsup Htally).
Qed.

Lemma toy_circuit_is_ghz_and_noiseless_outcomes_are_000_111_witness :
  let samples := repeat 0 512 ++ repeat 7 512 in
  let items := [("000", VInt 512); ("111", VInt 512)] in
  run session notebook recorded_session = (Returned VNone, recorded_log, recorded_end) /\
  noiseless_counts recorded_log = Some (VDict items) /\
  ideal_noiseless_run recorded_log samples items /\
  ghz_built_and_run recorded_log items /\
  built_circuit recorded_log = Some toy_circuit /\
  (forall key value, In (key, value) items -> key = "000" \/ key = "111") /\
  count_of "000" items + count_of "111" items = Z.of_nat (List.length samples).
Proof.
  intros samples items.
  assert (Hrun : run session notebook recorded_session
                 = (Returned VNone, recorded_log, recorded_end))
    by (vm_compute; reflexivity).
  assert (Hcounts : noiseless_counts recorded_log = Some (VDict items))
    by (vm_compute; reflexivity).
  assert (Hideal : ideal_noiseless_run recorded_log samples items).
  { exists 3, toy_circuit.
    split; [vm_compute; reflexivity | split; [vm_compute; reflexivity |]].
    exists [0; 7].
    split; [vm_compute; reflexivity | split].
    - apply Forall_app; split; apply Forall_forall; intros x Hx;
        apply repeat_spec in Hx; subst x; simpl; tauto.
    - exact (two_outcome_tally 512 512 ltac:(lia) ltac:(lia)). }
  destruct (toy_circuit_is_ghz_and_noiseless_outcomes_are_000_111
              world session recorded_session VNone recorded_log recorded_end
              samples items Hrun Hcounts Hideal)
    as [Hbuilt [_ [Hcircuit [_ [_ [_ Hres]]]]]].
  split; [exact Hrun | split; [exact Hcounts | split; [exact Hideal |
    split; [exact Hbuilt | split; [exact Hcircuit | exact Hres]]]]].
Defined.

(** C9: the [basis_gates] given to the noisy execution are the noise
    model's own: the value is read off [noise_model.basis_gates] once,
    immediately before the call, and passed unchanged, together with that
    same noise model, to the only call that takes a [basis_gates]
    keyword. *)
Theorem basis_gates_are_the_noise_models_own :
  forall (World : Type) (respond : op -> World -> reply * World) w v tr w',
    run respond notebook w = (Returned v, tr, w') ->
    basis_gates_from_noise_model tr.
Proof. of_completed_runs. all: settle. Qed.

Lemma basis_gates_are_the_noise_models_own_witness :
  run session notebook recorded_session = (Returned VNone, recorded_log, recorded_end) /\
  basis_gates_from_noise_model recorded_log.
Proof.
  split; [vm_compute; reflexivity |].
  apply (basis_gates_are_the_noise_models_own
           world session recorded_session VNone recorded_log recorded_end).
  vm_compute; reflexivity.
Defined.

(** C10: the derived chemistry quantities agree with one another:
    [num_particles] is [molecule.num_alpha + molecule.num_beta] and
    [num_spin_orbitals] is twice [molecule.num_orbitals]; the two-qubit
    reduction is given that same [num_particles]; and [num_qubits], read
    once off the reduced operator, is the qubit count passed to both the
    Hartree-Fock initial state and the RYRZ variational form, which is
    built on that initial state. *)
Theorem chemistry_quantities_are_consistent :
  forall (World : Type) (respond : op -> World -> reply * World) w v tr w',
    run respond notebook w = (Returned v, tr, w') ->
    chemistry_quantities_consistent tr.
Proof.
  of_completed_runs.
  all: do 11 eexists.
  all: repeat match goal with |- _ /\ _ => split end.
  all: try reflexivity.
  all: try (unfold python_add, python_mult;
            first [ left; do 2 eexists; repeat split; reflexivity
                  | right; find_event ]).
  all: try (intros; first [ congruence | rewrite Z.mul_comm; congruence
                          | exfalso; eauto ]).
Qed.

Lemma chemistry_quantities_are_consistent_witness :
  run session notebook recorded_session = (Returned VNone, recorded_log, recorded_end) /\
  chemistry_quantities_consistent recorded_log.
Proof.
  split; [vm_compute; reflexivity |].
  apply (chemistry_quantities_are_consistent
           world session recorded_session VNone recorded_log recorded_end).
  vm_compute; reflexivity.
Defined.

(** ** Further properties of the notebook *)

(** *** Every operation of every run *)

Lemma every_op_sound (p : op -> bool) (s : script) :
  every_op p s ->
  forall (World : Type) (respond : op -> World -> reply * World) w out tr w',
    run respond s w = (out, tr, w') -> Forall (fun ev => p (fst ev) = true) tr.
Proof.
  induction s as [v0 | o k IH | e | body _ handler _ k _]; simpl;
    intros Hs World respond w out tr w' Hrun.
  - inversion Hrun; subst; constructor.
  - destruct Hs as [Ho Hk].
    destruct (respond o w) as [[v1 | e1] w1].
    + destruct (run respond (k v1) w1) as [[out1 tr1] w2] eqn:E.
      inversion Hrun; subst. constructor; [exact Ho |].
      exact (IH v1 (Hk v1) World respond w1 out tr1 w' E).
    + inversion Hrun; subst. constructor; [exact Ho | constructor].
  - inversion Hrun; subst; constructor.
  - contradiction.
Qed.

Lemma every_op_py_add p l r k :
  (forall x y, p (BinOp Add x y) = true) ->
  (forall v, every_op p (k v)) -> every_op p (py_add l r k).
Proof. intros Hp Hk; destruct l, r; simpl; auto. Qed.

Lemma every_op_py_mult p l r k :
  (forall x y, p (BinOp Mult x y) = true) ->
  (forall v, every_op p (k v)) -> every_op p (py_mult l r k).
Proof. intros Hp Hk; destruct l, r; simpl; auto. Qed.

Lemma every_op_do (p : op -> bool) o k :
  p o = true -> (forall v, every_op p (k v)) -> every_op p (Do o k).
Proof. intros Ho Hk; split; assumption. Qed.

Lemma select_none (q : op -> bool) (tr : trace) :
  Forall (fun ev => q (fst ev) = false) tr -> select q tr = [].
Proof.
  induction 1 as [| ev tr Hev _ IH]; [reflexivity |].
  unfold select in *; simpl. rewrite Hev. exact IH.
Qed.

Lemma unknown_keyword_unused name o :
  keywords_known o = true -> ~ In name keywords_passed -> has_keyword name o = false.
Proof.
  intros Hknown Hnot.
  destruct (has_keyword name o) eqn:Hhas; [exfalso | reflexivity].
  apply Hnot.
  assert (Hkws : forall kws : list (string * pyval),
             forallb (fun k => existsb (String.eqb k) keywords_passed) (map fst kws) = true ->
             existsb (fun kw => (fst kw =? name)%string) kws = true ->
             In name keywords_passed).
  { intros kws Hall Hex.
    apply existsb_exists in Hex. destruct Hex as [kw [Hin Heq]].
    apply String.eqb_eq in Heq.
    rewrite forallb_forall in Hall.
    specialize (Hall (fst kw) (in_map fst kws kw Hin)).
    apply existsb_exists in Hall. destruct Hall as [k' [Hin' Heq']].
    apply String.eqb_eq in Heq'. rewrite <- Heq, Heq'. exact Hin'. }
  destruct o; simpl in Hhas; try discriminate;
    unfold keywords_known in Hknown; simpl in Hknown; eauto.
Qed.

Ltac walk_ops :=
  repeat first
    [ apply every_op_do; [vm_compute; reflexivity | intro]
    | apply every_op_py_add; [intros; reflexivity | intro]
    | apply every_op_py_mult; [intros; reflexivity | intro]
    | exact I ].

Lemma notebook_keywords_known : every_op keywords_known notebook.
Proof. unfold notebook. walk_ops. Qed.

Lemma notebook_calls_no_unused : every_op (fun o => negb (calls_unused o)) notebook.
Proof. unfold notebook. walk_ops. Qed.

Lemma notebook_subscripts_within : every_op (subscript_within 3) notebook.
Proof. unfold notebook. walk_ops. Qed.

Lemma not_calls_unused x o :
  In x unused_imports -> negb (calls_unused o) = true -> call_is x o = false.
Proof.
  intros Hx Hneg. apply negb_true_iff in Hneg.
  destruct (call_is x o) eqn:Hcall; [| reflexivity].
  assert (Hex : calls_unused o = true)
    by (apply existsb_exists; exists x; split; assumption).
  rewrite Hex in Hneg; discriminate.
Qed.

(** In any run every subscript has a literal index 0, 1 or 2; in a
    completed run the subscripts are exactly qr[0], qr[0], qr[1], qr[1],
    qr[2] on the one quantum register, created with size 3: the register
    is never indexed out of bounds and the classical register is never
    indexed. *)
Theorem subscripts_stay_inside_the_register :
  forall (World : Type) (respond : op -> World -> reply * World) w out tr w',
    run respond notebook w = (out, tr, w') ->
    Forall (fun ev => subscript_within 3 (fst ev) = true) tr /\
    match out with
    | Returned _ => subscripts_on_the_register tr
    | Raised _ => True
    end.
Proof.
  intros World respond w out tr w' Hrun. split.
  - exact (every_op_sound _ notebook notebook_subscripts_within
             World respond w out tr w' Hrun).
  - destruct out as [v | e]; [| exact I].
    revert World respond w v tr w' Hrun. of_completed_runs. all: settle.
Qed.

Lemma subscripts_stay_inside_the_register_witness :
  run session notebook recorded_session = (Returned VNone, recorded_log, recorded_end) /\
  Forall (fun ev => subscript_within 3 (fst ev) = true) recorded_log /\
  subscripts_on_the_register recorded_log.
Proof.
  split; [vm_compute; reflexivity |].
  apply (subscripts_stay_inside_the_register
           world session recorded_session (Returned VNone) recorded_log recorded_end).
  vm_compute; reflexivity.
Defined.

(** In any run, completed or not, every keyword argument of every call is
    one of the twelve the notebook writes, so a keyword outside that list,
    such as [shots], [seed] or [seed_simulator], is passed to no call: the
    notebook fixes neither the number of shots nor any random seed. *)
Theorem no_call_passes_an_unlisted_keyword :
  forall (World : Type) (respond : op -> World -> reply * World) w out tr w' name,
    run respond notebook w = (out, tr, w') ->
    ~ In name keywords_passed ->
    Forall (fun ev => keywords_known (fst ev) = true) tr /\
    keyword_uses name tr = [].
Proof.
  intros World respond w out tr w' name Hrun Hname.
  pose proof (every_op_sound _ notebook notebook_keywords_known
                World respond w out tr w' Hrun) as Hknown.
  split; [exact Hknown |].
  apply select_none. eapply Forall_impl; [| exact Hknown].
  intros ev Hev. apply unknown_keyword_unused; assumption.
Qed.

Lemma no_call_passes_an_unlisted_keyword_witness :
  run session notebook recorded_session = (Returned VNone, recorded_log, recorded_end) /\
  ~ In "shots" keywords_passed /\
  Forall (fun ev => keywords_known (fst ev) = true) recorded_log /\
  keyword_uses "shots" recorded_log = [].
Proof.
  assert (Hname : ~ In "shots" keywords_passed)
    by (simpl; intuition discriminate).
  split; [vm_compute; reflexivity |]. split; [exact Hname |].
  apply (no_call_passes_an_unlisted_keyword
           world session recorded_session (Returned VNone) recorded_log recorded_end
           "shots"); [vm_compute; reflexivity | exact Hname].
Defined.

(** [job_monitor], [OrderedDict], [set_logging_config] and
    [build_logging_config] are imported by a completed run and called in
    no run. *)
Theorem unused_imports_are_never_called :
  forall (World : Type) (respond : op -> World -> reply * World) w out tr w',
    run respond notebook w = (out, tr, w') ->
    Forall (fun x => calls_of x tr = []) unused_imports /\
    match out with
    | Returned _ => forallb (imported (map fst tr)) unused_imports = true
    | Raised _ => True
    end.
Proof.
  intros World respond w out tr w' Hrun. split.
  - pose proof (every_op_sound _ notebook notebook_calls_no_unused
                  World respond w out tr w' Hrun) as Hnone.
    apply Forall_forall. intros x Hx.
    apply select_none. eapply Forall_impl; [| exact Hnone].
    intros ev Hev. exact (not_calls_unused x (fst ev) Hx Hev).
  - destruct out as [v | e]; [| exact I].
    revert World respond w v tr w' Hrun. of_completed_runs.
    all: vm_compute; reflexivity.
Qed.

Lemma unused_imports_are_never_called_witness :
  run session notebook recorded_session = (Returned VNone, recorded_log, recorded_end) /\
  Forall (fun x => calls_of x recorded_log = []) unused_imports /\
  forallb (imported (map fst recorded_log)) unused_imports = true.
Proof.
  split; [vm_compute; reflexivity |].
  apply (unused_imports_are_never_called
           world session recorded_session (Returned VNone) recorded_log recorded_end).
  vm_compute; reflexivity.
Defined.

(** A completed run obtains exactly two backends, the cloud device
    [ibmq_poughkeepsie] and the local [qasm_simulator], and every request
    to run something names the simulator: both [execute] calls take it as
    backend and the only [backend] keyword, the QuantumInstance's, is the
    simulator.  The noise model is passed to the noisy execution and to
    the QuantumInstance and to nothing else. *)
Theorem everything_is_run_on_the_simulator :
  forall (World : Type) (respond : op -> World -> reply * World) w v tr w',
    run respond notebook w = (Returned v, tr, w') ->
    everything_runs_on_the_simulator tr.
Proof. of_completed_runs. all: settle. Qed.

Lemma everything_is_run_on_the_simulator_witness :
  run session notebook recorded_session = (Returned VNone, recorded_log, recorded_end) /\
  everything_runs_on_the_simulator recorded_log.
Proof.
  split; [vm_compute; reflexivity |].
  apply (everything_is_run_on_the_simulator
           world session recorded_session VNone recorded_log recorded_end).
  vm_compute; reflexivity.
Defined.

(** In a completed run Aqua logging is set exactly once, to the value read
    off [logging.DEBUG]; nothing else of the chemistry stage happens before
    it, neither execution of the toy circuit happens after it, and the
    driver run and the VQE run both come after it. *)
Theorem logging_is_enabled_before_the_chemistry_runs :
  forall (World : Type) (respond : op -> World -> reply * World) w v tr w',
    run respond notebook w = (Returned v, tr, w') ->
    logging_before_chemistry tr.
Proof. of_completed_runs. all: settle. Qed.

Lemma logging_is_enabled_before_the_chemistry_runs_witness :
  run session notebook recorded_session = (Returned VNone, recorded_log, recorded_end) /\
  logging_before_chemistry recorded_log.
Proof.
  split; [vm_compute; reflexivity |].
  apply (logging_is_enabled_before_the_chemistry_runs
           world session recorded_session VNone recorded_log recorded_end).
  vm_compute; reflexivity.
Defined.
